(** * netfuncs: IPv4 address arithmetic, subnet matching and router lookup

    A shallow embedding of [netfuncs.py] and the properties of its
    specification.  Python integers are unbounded, so they are modelled
    by [Z]; [<<], [>>], [|] and [&] are [Z.shiftl], [Z.shiftr], [Z.lor]
    and [Z.land], which agree with Python on negative numbers as well
    (infinite two's complement).  Python strings are modelled by [string],
    one character per code point below 256.  Exceptions are an explicit
    error result; a dictionary is an association list in insertion order,
    because iteration order is observable in [find_router_for_ip]. *)

From Stdlib Require Import ZArith List Bool Lia.
From Stdlib Require Import Strings.Ascii Strings.String.
From Stdlib Require Import Numbers.DecimalString Numbers.DecimalFacts Numbers.DecimalZ.
Import ListNotations.

#[local] Open Scope list_scope.
#[local] Open Scope string_scope.
#[local] Open Scope Z_scope.

(** ** The fragment of the Python runtime the program relies on *)

Module Py.

(** The exception classes the program can raise. *)
Inductive exn : Type :=
| ValueError
| KeyError
| TypeError
| IndexError.

(** A computation either returns a value or raises. *)
Inductive result (A : Type) : Type :=
| Ok (a : A)
| Raise (e : exn).

Arguments Ok {A} a.
Arguments Raise {A} e.

Definition bind {A B : Type} (c : result A) (k : A -> result B) : result B :=
  match c with
  | Ok a => k a
  | Raise e => Raise e
  end.

(** A [for] loop over a list whose body may raise: the loop state is
    threaded through the iterations and the first exception aborts it. *)
Fixpoint for_each {A S : Type} (l : list A) (body : S -> A -> result S)
         (s : S) : result S :=
  match l with
  | [] => Ok s
  | x :: rest => bind (body s x) (for_each rest body)
  end.

(** Dynamically typed values, for the one place where the program mixes
    integers and strings in one variable (the accumulator of [reduce]). *)
Inductive pyval : Type :=
| PInt (z : Z)
| PStr (s : string).

(** *** [str] of an integer

    The decimal text of the number.  (The interpreter refuses to print a
    number of more than [int_max_str_digits] digits; the program applies
    [str] to octets only, so that refusal is out of its reach.) *)

Definition str_int (z : Z) : string := NilZero.string_of_int (Z.to_int z).

Definition str (v : pyval) : string :=
  match v with
  | PInt z => str_int z
  | PStr s => s
  end.

(** *** [int] of a string (base 10)

    [int] strips surrounding whitespace, accepts one optional sign and
    then requires decimal digits, where single underscores may separate
    digits.  A text with more than [int_max_str_digits] digits (leading
    zeros count; sign, underscores and blanks do not) is refused.  Every
    refusal is a [ValueError]. *)

(** The blanks [int] strips: tab to carriage return, the space, and the
    two blanks of the Latin-1 range (next line, no-break space).  The
    separators 28 to 31 are not stripped. *)
Definition is_space (c : ascii) : bool :=
  let n := nat_of_ascii c in
  (((9 <=? n) && (n <=? 13)) || (n =? 32) || (n =? 133) || (n =? 160))%nat.

(** The interpreter's default limit on the digits of a text to convert. *)
Definition int_max_str_digits : Z := 4300.

Definition is_digit (c : ascii) : bool :=
  let n := nat_of_ascii c in ((48 <=? n) && (n <=? 57))%nat.

Fixpoint lstrip (s : string) : string :=
  match s with
  | EmptyString => EmptyString
  | String c rest => if is_space c then lstrip rest else s
  end.

Fixpoint rstrip (s : string) : string :=
  match s with
  | EmptyString => EmptyString
  | String c rest =>
      match rstrip rest with
      | EmptyString => if is_space c then EmptyString else String c EmptyString
      | t => String c t
      end
  end.

Definition strip (s : string) : string := rstrip (lstrip s).

(** Checks the digit/underscore grammar and returns the digits alone.
    [after_digit] tells whether the previous character was a digit: an
    underscore is legal only there, and the text must end on a digit. *)
Fixpoint digits_of (after_digit : bool) (s : string) : option string :=
  match s with
  | EmptyString => if after_digit then Some EmptyString else None
  | String c rest =>
      if Ascii.eqb c "_" then
        if after_digit then digits_of false rest else None
      else if is_digit c then
        option_map (String c) (digits_of true rest)
      else None
  end.

Definition int (s : string) : result Z :=
  match strip s with
  | EmptyString => Raise ValueError
  | String c rest as t =>
      let '(negative, body) :=
        if Ascii.eqb c "-" then (true, rest)
        else if Ascii.eqb c "+" then (false, rest)
        else (false, t) in
      match digits_of false body with
      | None => Raise ValueError
      | Some ds =>
          if int_max_str_digits <? Z.of_nat (String.length ds)
          then Raise ValueError
          else
            match NilEmpty.uint_of_string ds with
            | None => Raise ValueError
            | Some u => Ok (if negative then - Z.of_uint u else Z.of_uint u)
            end
      end
  end.

(** *** [s.split(sep)] for a one-character separator

    The result is never empty: a text without the separator is returned
    whole, and the empty text yields one empty part. *)
Fixpoint split (sep : ascii) (s : string) : list string :=
  match s with
  | EmptyString => [EmptyString]
  | String c rest =>
      if Ascii.eqb c sep then EmptyString :: split sep rest
      else match split sep rest with
           | part :: parts => String c part :: parts
           | [] => [String c EmptyString]
           end
  end.

(** *** Indexing a list, [l[i]], negative indices counting from the end *)
Definition index {A : Type} (l : list A) (i : Z) : result A :=
  let n := Z.of_nat (List.length l) in
  let j := if i <? 0 then i + n else i in
  if (j <? 0) || (n <=? j) then Raise IndexError
  else match nth_error l (Z.to_nat j) with
       | Some x => Ok x
       | None => Raise IndexError
       end.

(** *** [range(start, stop, step)] for a positive step, and [range(start, stop)] *)
Definition range3 (start stop step : Z) : list Z :=
  map (fun k => start + step * Z.of_nat k)
      (seq 0 (Z.to_nat ((stop - start + step - 1) / step))).

Definition range (start stop : Z) : list Z := range3 start stop 1.

(** *** [a << n]: a negative shift count is a [ValueError] *)
Definition lshift (a n : Z) : result Z :=
  if n <? 0 then Raise ValueError else Ok (Z.shiftl a n).

(** *** [functools.reduce(f, l)] without initial value *)
Definition reduce (f : pyval -> pyval -> pyval) (l : list pyval) : result pyval :=
  match l with
  | [] => Raise TypeError
  | x :: rest => Ok (fold_left f rest x)
  end.

(** *** Dictionaries with text keys, in insertion order *)
Definition dict (V : Type) : Type := list (string * V).

Fixpoint lookup {V : Type} (d : dict V) (k : string) : option V :=
  match d with
  | [] => None
  | (k', v) :: rest => if String.eqb k' k then Some v else lookup rest k
  end.

(** [d[k]] raises [KeyError] for a missing key. *)
Definition getitem {V : Type} (d : dict V) (k : string) : result V :=
  match lookup d k with
  | Some v => Ok v
  | None => Raise KeyError
  end.

Definition keys {V : Type} (d : dict V) : list string := map fst d.

End Py.

Import Py.

Notation "x <- c ;; k" := (bind c (fun x => k))
  (at level 61, c at next level, right associativity).

(** ** The address functions of [netfuncs.py] *)

(** [ipv4_to_value]: the loop state is the pair [(result, num)]. *)
Definition ipv4_to_value (ipv4_addr : string) : result Z :=
  let sections := split "." ipv4_addr in
  st <- for_each sections
          (fun '(result, num) part =>
             n <- int part ;;
             shifted <- lshift n num ;;
             Ok (Z.lor shifted result, num - 8))
          (0, 24) ;;
  Ok (fst st).

(** [value_to_ipv4]: [res.insert(0, x)] puts [x] in front. *)
Definition value_to_ipv4 (addr : Z) : result pyval :=
  let and_me := 255 in
  let res :=
    fold_left (fun res i => PInt (Z.land (Z.shiftr addr i) and_me) :: res)
              (range3 0 32 8) [] in
  reduce (fun a b => PStr (str a ++ "." ++ str b)) res.

Definition set_bit (num digit : Z) : result Z :=
  one <- lshift 1 digit ;;
  Ok (Z.lor num one).

Definition set_bits (num begin_ end_ : Z) : result Z :=
  for_each (range begin_ end_) set_bit num.

Definition get_subnet_mask_value (slash : string) : result Z :=
  tail <- index (split "/" slash) (-1) ;;
  n <- int tail ;;
  let begin_ := 32 - n in
  let end_ := 32 in
  set_bits 0 begin_ end_.

Definition ips_same_subnet (ip1 ip2 slash : string) : result bool :=
  mask <- get_subnet_mask_value slash ;;
  ip1_value <- ipv4_to_value ip1 ;;
  ip2_value <- ipv4_to_value ip2 ;;
  Ok (Z.land ip1_value mask =? Z.land ip2_value mask).

Definition get_network (ip_value netmask : Z) : Z := Z.land ip_value netmask.

(** A router is a dictionary of text fields; only ["netmask"] is read. *)
Definition router : Type := dict string.

(** [find_router_for_ip]: iterates [routers.items()], that is the table in
    its own order; falling off the end of the loop returns [None]. *)
Fixpoint find_router_for_ip (routers : dict router) (ip : string)
  : result (option string) :=
  match routers with
  | [] => Ok None
  | (router_ip, r) :: rest =>
      netmask <- getitem r "netmask" ;;
      same <- ips_same_subnet ip router_ip netmask ;;
      if same then Ok (Some router_ip) else find_router_for_ip rest ip
  end.

(** ** Sorting, sets and text formatting used by the report *)

Module Fmt.

(** [sorted(l)]: only [<] is consulted, and a comparison may raise.  The
    order is total on the element types used here, so every stable sort
    returns the same list as this insertion sort; and a list of two or more
    elements has every element compared at least once, so a comparison that
    raises for some element makes any sort raise. *)
Fixpoint insert_sorted {A : Type} (lt : A -> A -> result bool) (x : A)
         (l : list A) : result (list A) :=
  match l with
  | [] => Ok [x]
  | y :: rest =>
      before <- lt y x ;;
      if before then (r <- insert_sorted lt x rest ;; Ok (y :: r))
      else Ok (x :: l)
  end.

Fixpoint sorted {A : Type} (lt : A -> A -> result bool) (l : list A)
  : result (list A) :=
  match l with
  | [] => Ok []
  | x :: rest => r <- sorted lt rest ;; insert_sorted lt x r
  end.

(** [<] on texts compares code points lexicographically. *)
Definition str_lt (a b : string) : result bool := Ok (String.ltb a b).

(** [<] on lists of texts is lexicographic. *)
Fixpoint list_ltb (a b : list string) : bool :=
  match a, b with
  | [], [] => false
  | [], _ :: _ => true
  | _ :: _, [] => false
  | x :: xs, y :: ys => if String.eqb x y then list_ltb xs ys else String.ltb x y
  end.

Definition list_lt (a b : list string) : result bool := Ok (list_ltb a b).

(** [<] between [None] and anything is a [TypeError]. *)
Definition key_lt (a b : option string) : result bool :=
  match a, b with
  | Some x, Some y => Ok (String.ltb x y)
  | _, _ => Raise TypeError
  end.

(** [set(l)] followed by [sorted]: the set removes duplicates, and its
    iteration order does not show after sorting. *)
Definition set_of (l : list string) : list string := nodup string_dec l.

Definition newline : string := String (ascii_of_nat 10) EmptyString.
Definition backslash : ascii := ascii_of_nat 92.
Definition single_quote : ascii := ascii_of_nat 39.
Definition double_quote : ascii := ascii_of_nat 34.

Fixpoint spaces (n : nat) : string :=
  match n with
  | O => EmptyString
  | S k => String " " (spaces k)
  end.

(** The format specification [>15s]: right-aligned in at least 15 columns. *)
Definition rjust (width : nat) (s : string) : string :=
  spaces (width - String.length s) ++ s.

Fixpoint contains (c : ascii) (s : string) : bool :=
  match s with
  | EmptyString => false
  | String c' rest => Ascii.eqb c c' || contains c rest
  end.

Definition hex_digit (n : nat) : ascii :=
  match get n "0123456789abcdef" with
  | Some c => c
  | None => "0"%char
  end.

Definition printable (c : ascii) : bool :=
  let n := nat_of_ascii c in
  (((32 <=? n) && (n <=? 126)) || ((161 <=? n) && negb (n =? 173)))%nat.

(** [repr] of a text: single quotes unless the text has a single quote and
    no double quote; the quote and the backslash are escaped, control
    characters are written symbolically or as [\xNN]. *)
Definition repr_char (quote c : ascii) : string :=
  let n := nat_of_ascii c in
  if Ascii.eqb c quote || Ascii.eqb c backslash then String backslash (String c EmptyString)
  else if (n =? 9)%nat then String backslash "t"
  else if (n =? 10)%nat then String backslash "n"
  else if (n =? 13)%nat then String backslash "r"
  else if printable c then String c EmptyString
  else String backslash
         (String "x" (String (hex_digit (n / 16)) (String (hex_digit (n mod 16)) EmptyString))).

Fixpoint repr_body (quote : ascii) (s : string) : string :=
  match s with
  | EmptyString => EmptyString
  | String c rest => repr_char quote c ++ repr_body quote rest
  end.

Definition repr_str (s : string) : string :=
  let quote :=
    if contains single_quote s && negb (contains double_quote s)
    then double_quote else single_quote in
  String quote (repr_body quote s ++ String quote EmptyString).

(** [str] of a list of texts, as an f-string renders it. *)
Definition repr_list (l : list string) : string :=
  "[" ++ String.concat ", " (map repr_str l) ++ "]".

End Fmt.

Import Fmt.

(** ** The driver: output streams, the report and [main] *)

(** The content of the input file after [json.loads]: both top-level keys
    may be missing.  A pair of addresses is a list, as JSON has it. *)
Record json_data : Type := {
  jd_routers : option (dict router);      (* json_data["routers"] *)
  jd_src_dest : option (list (list string)) (* json_data["src-dest"] *)
}.

(** The world the driver acts on: what was written to the two streams, and
    what opening, reading and decoding each file name yields. *)
Record world : Type := {
  stdout : string;
  stderr : string;
  files : string -> result json_data
}.

Definition IO (A : Type) : Type := world -> result A * world.

Definition ret {A : Type} (a : A) : IO A := fun w => (Ok a, w).

Definition bindIO {A B : Type} (c : IO A) (k : A -> IO B) : IO B :=
  fun w =>
    match c w with
    | (Ok a, w') => k a w'
    | (Raise e, w') => (Raise e, w')
    end.

(** A pure computation inside the driver: its exception propagates. *)
Definition lift {A : Type} (r : result A) : IO A := fun w => (r, w).

Notation "x <~ c ;; k" := (bindIO c (fun x => k))
  (at level 61, c at next level, right associativity).
Notation "c ;;; k" := (bindIO c (fun _ => k))
  (at level 61, right associativity).

Fixpoint for_io {A : Type} (l : list A) (body : A -> IO unit) : IO unit :=
  match l with
  | [] => ret tt
  | x :: rest => body x ;;; for_io rest body
  end.

(** [print(s, end=e)] and [print(s)]. *)
Definition print_end (s e : string) : IO unit :=
  fun w => (Ok tt, {| stdout := stdout w ++ s ++ e;
                      stderr := stderr w; files := files w |}).

Definition print (s : string) : IO unit := print_end s newline.

(** [print(s, file=sys.stderr)]. *)
Definition print_stderr (s : string) : IO unit :=
  fun w => (Ok tt, {| stdout := stdout w;
                      stderr := stderr w ++ s ++ newline; files := files w |}).

Definition usage : IO unit := print_stderr "usage: netfuncs.py infile.json".

Definition read_routers (file_name : string) : IO json_data :=
  fun w => (files w file_name, w).

Definition print_routers (routers : dict router) : IO unit :=
  print "Routers:" ;;;
  routers_list <~ lift (sorted str_lt (keys routers)) ;;
  for_io routers_list (fun router_ip =>
    line <~ lift (
      r <- getitem routers router_ip ;;
      slash_mask <- getitem r "netmask" ;;
      netmask_value <- get_subnet_mask_value slash_mask ;;
      netmask <- value_to_ipv4 netmask_value ;;
      router_ip_value <- ipv4_to_value router_ip ;;
      let network_value := get_network router_ip_value netmask_value in
      network_ip <- value_to_ipv4 network_value ;;
      Ok (" " ++ rjust 15 router_ip ++ ": netmask " ++ str netmask
              ++ ": network " ++ str network_ip)) ;;
    print line).

(** [for src_ip, dest_ip in ...]: unpacking anything but two elements is a
    [ValueError]. *)
Definition unpack2 (pair : list string) : result (string * string) :=
  match pair with
  | [a; b] => Ok (a, b)
  | _ => Raise ValueError
  end.

Definition print_same_subnets (src_dest_pairs : list (list string)) : IO unit :=
  print "IP Pairs:" ;;;
  src_dest_pairs_list <~ lift (sorted list_lt src_dest_pairs) ;;
  for_io src_dest_pairs_list (fun pair =>
    p <~ lift (unpack2 pair) ;;
    let '(src_ip, dest_ip) := p in
    print_end (" " ++ rjust 15 src_ip ++ " " ++ rjust 15 dest_ip ++ ": ") "" ;;;
    same <~ lift (ips_same_subnet src_ip dest_ip "/24") ;;
    if same then print "same subnet" else print "different subnets").

(** [router_host_map]: keyed by what [find_router_for_ip] returned, that is
    a router address or [None]; kept in insertion order. *)
Definition host_map : Type := list (option string * list string).

Definition key_eqb (a b : option string) : bool :=
  match a, b with
  | None, None => true
  | Some x, Some y => String.eqb x y
  | _, _ => false
  end.

Definition host_map_mem (m : host_map) (k : option string) : bool :=
  existsb (fun e => key_eqb (fst e) k) m.

(** [router_host_map[k].append(ip)] for a key that is present. *)
Fixpoint host_map_append (m : host_map) (k : option string) (ip : string)
  : host_map :=
  match m with
  | [] => []
  | (k', ips) :: rest =>
      if key_eqb k' k then (k', (ips ++ [ip])%list) :: rest
      else (k', ips) :: host_map_append rest k ip
  end.

Fixpoint host_map_get (m : host_map) (k : option string) : result (list string) :=
  match m with
  | [] => Raise KeyError
  | (k', ips) :: rest => if key_eqb k' k then Ok ips else host_map_get rest k
  end.

(** The first loop of [print_ip_routers]. *)
Definition build_host_map (routers : dict router) (all_ips : list string)
  : result host_map :=
  for_each all_ips
    (fun router_host_map ip =>
       found <- find_router_for_ip routers ip ;;
       let m := if host_map_mem router_host_map found then router_host_map
                else (router_host_map ++ [(found, [])])%list in
       Ok (host_map_append m found ip))
    [].

(** Formatting a key with [>15s]: [None] does not accept a format
    specification. *)
Definition format_key (k : option string) : result string :=
  match k with
  | Some router_ip => Ok (rjust 15 router_ip)
  | None => Raise TypeError
  end.

Definition print_ip_routers (routers : dict router)
           (src_dest_pairs : list (list string)) : IO unit :=
  print "Routers and corresponding IPs:" ;;;
  all_ips <~ lift (sorted str_lt (set_of (List.concat src_dest_pairs))) ;;
  router_host_map <~ lift (build_host_map routers all_ips) ;;
  key_list <~ lift (sorted key_lt (map fst router_host_map)) ;;
  for_io key_list (fun router_ip =>
    line <~ lift (
      shown <- format_key router_ip ;;
      ips <- host_map_get router_host_map router_ip ;;
      Ok (" " ++ shown ++ ": " ++ repr_list ips)) ;;
    print line).

(** [my_tests] is defined only inside a string literal of the module, so
    the name is not bound when [main] looks it up in [globals()]. *)
Definition my_tests : option (IO unit) := None.

Definition from_field {A : Type} (f : option A) : result A :=
  match f with
  | Some a => Ok a
  | None => Raise KeyError
  end.

(** [main] returns [0], [1] or nothing ([None]). *)
Definition main (argv : list string) : IO (option Z) :=
  match my_tests with
  | Some tests => tests ;;; ret (Some 0)
  | None =>
      match index argv 1 with
      | Raise _ => usage ;;; ret (Some 1)
      | Ok router_file_name =>
          data <~ read_routers router_file_name ;;
          routers <~ lift (from_field (jd_routers data)) ;;
          src_dest_pairs <~ lift (from_field (jd_src_dest data)) ;;
          print_routers routers ;;;
          print "" ;;;
          print_same_subnets src_dest_pairs ;;;
          print "" ;;;
          print_ip_routers routers src_dest_pairs ;;;
          ret None
      end
  end.

(** [sys.exit(main(sys.argv))]: the exit status of the process.  [None]
    exits with 0, an integer with that status, and an exception that
    escapes [main] ends the process with status 1. *)
Definition exit_status (argv : list string) (w : world) : Z * world :=
  match main argv w with
  | (Ok (Some status), w') => (status, w')
  | (Ok None, w') => (0, w')
  | (Raise _, w') => (1, w')
  end.

(** ** Well-formed inputs *)

Fixpoint all_digits (s : string) : bool :=
  match s with
  | EmptyString => true
  | String c rest => is_digit c && all_digits rest
  end.

(** A decimal integer in 0-255: digits only, at least one, read by [int]
    as a number of at most 255.  (A text of more digits than [int] accepts
    is not one: [int] raises on it.) *)
Definition decimal_octet (p : string) : bool :=
  negb (String.eqb p "") && all_digits p
  && match int p with
     | Ok n => n <=? 255
     | Raise _ => false
     end.

(** Canonical: no leading zero, except for the text "0" itself. *)
Definition no_leading_zero (p : string) : bool :=
  match p with
  | String "0"%char (String _ _) => false
  | _ => true
  end.

Definition canonical_octet (p : string) : bool :=
  decimal_octet p && no_leading_zero p.

(** Dotted-decimal text of exactly four parts. *)
Definition decimal_ipv4 (s : string) : bool :=
  match split "." s with
  | [a; b; c; d] =>
      decimal_octet a && decimal_octet b && decimal_octet c && decimal_octet d
  | _ => false
  end.

Definition canonical_ipv4 (s : string) : bool :=
  match split "." s with
  | [a; b; c; d] =>
      canonical_octet a && canonical_octet b && canonical_octet c
      && canonical_octet d
  | _ => false
  end.

(** Slash notation for the prefix length [n]: ["/n"], possibly after an
    address or any other text. *)
Definition slash_notation (slash : string) (n : Z) : Prop :=
  exists pre : string, slash = pre ++ "/" ++ str_int n.

(** A well-formed entry of the router table: the key is a dotted-decimal
    address and the router has a netmask in slash notation, 0 to 32. *)
Definition router_entry_ok (e : string * router) : Prop :=
  decimal_ipv4 (fst e) = true
  /\ exists slash n,
      lookup (snd e) "netmask" = Some slash
      /\ slash_notation slash n /\ 0 <= n <= 32.

(** [on_subnet_of ip e b]: the test [find_router_for_ip] makes for the
    entry [e] returns [b]. *)
Definition on_subnet_of (ip : string) (e : string * router) (b : bool) : Prop :=
  exists slash,
    lookup (snd e) "netmask" = Some slash
    /\ ips_same_subnet ip (fst e) slash = Ok b.

(** ** Arithmetic reading of the address functions *)

(** The value [ipv4_to_value] builds from four octets, first octet first. *)
Definition pack (a b c d : Z) : Z := a * 2 ^ 24 + b * 2 ^ 16 + c * 2 ^ 8 + d.

(** The octet [value_to_ipv4] extracts at bit offset [i]. *)
Definition octet (v i : Z) : Z := Z.land (Z.shiftr v i) 255.

(** The mask of prefix length [n]: the high-order [n] bits of 32. *)
Definition mask_of (n : Z) : Z := 2 ^ 32 - 2 ^ (32 - n).

(** [routed_to routers k ip]: the search for [ip] returns [k] (a router
    address, or [None]). *)
Definition routed_to (routers : dict router) (k : option string) (ip : string)
  : bool :=
  match find_router_for_ip routers ip with
  | Ok k' => key_eqb k' k
  | Raise _ => false
  end.

(** A well-formed source/destination pair: two dotted-decimal addresses. *)
Definition pair_ok (pair : list string) : Prop :=
  exists src_ip dest_ip,
    pair = [src_ip; dest_ip]
    /\ decimal_ipv4 src_ip = true /\ decimal_ipv4 dest_ip = true.

(** The driver changes the world only by writing to the output stream. *)
Definition only_stdout (w w' : world) : Prop :=
  stderr w' = stderr w /\ files w' = files w
  /\ exists out, stdout w' = stdout w ++ out.

(** One pass of the first loop of [print_ip_routers], named for the
    proofs. *)
Definition host_map_step (routers : dict router) (router_host_map : host_map)
           (ip : string) : result host_map :=
  found <- find_router_for_ip routers ip ;;
  let m := if host_map_mem router_host_map found then router_host_map
           else (router_host_map ++ [(found, [])])%list in
  Ok (host_map_append m found ip).

(** What that loop maintains after the addresses [done]: keys are distinct,
    every bucket is the list of the addresses routed to its key, in the
    order they were met, and every address met has its key in the map. *)
Definition host_map_inv (routers : dict router) (m : host_map)
           (done : list string) : Prop :=
  NoDup (map fst m)
  /\ (forall k ips, In (k, ips) m ->
        ips <> [] /\ ips = filter (routed_to routers k) done)
  /\ (forall ip, In ip done ->
        exists k, find_router_for_ip routers ip = Ok k /\ In k (map fst m)).

(** A list of texts in ascending order: each element is at most the next. *)
Fixpoint ascending (l : list string) : Prop :=
  match l with
  | a :: (b :: _) as rest => String.leb a b = true /\ ascending rest
  | _ => True
  end.

(** The body of the loop of [ipv4_to_value], named for the proofs. *)
Definition body : Z * Z -> string -> result (Z * Z) :=
  fun '(result, num) part =>
    n <- int part ;;
    shifted <- lshift n num ;;
    Ok (Z.lor shifted result, num - 8).

(** ** Facts about the runtime fragment *)

Section TextFacts.

Lemma append_assoc (a b c : string) : (a ++ b) ++ c = a ++ (b ++ c).
Proof. induction a as [|x a IH]; simpl; [reflexivity | now rewrite IH]. Qed.

Lemma is_digit_not_space c : is_digit c = true -> is_space c = false.
Proof. destruct c as [[] [] [] [] [] [] [] []]; vm_compute; congruence. Qed.

Lemma is_digit_not_mark c :
  is_digit c = true ->
  Ascii.eqb c "-" = false /\ Ascii.eqb c "+" = false /\ Ascii.eqb c "_" = false
  /\ Ascii.eqb c "." = false /\ Ascii.eqb c "/" = false.
Proof.
  destruct c as [[] [] [] [] [] [] [] []]; vm_compute; intros H;
    try discriminate H; repeat split.
Qed.

Lemma is_digit_uint c u :
  is_digit c = true -> exists u', uint_of_char c (Some u) = Some u' /\ u' <> Decimal.Nil.
Proof.
  destruct c as [[] [] [] [] [] [] [] []]; vm_compute; intros H;
    try discriminate H; eexists; (split; [reflexivity | discriminate]).
Qed.

(** Texts of digits alone are parsed by [int] as they stand. *)
Lemma all_digits_rstrip s : all_digits s = true -> rstrip s = s.
Proof.
  induction s as [|c s IH]; simpl; [reflexivity|].
  intros H. apply andb_prop in H as [Hc Hs]. rewrite (IH Hs).
  destruct s; [now rewrite (is_digit_not_space _ Hc) | reflexivity].
Qed.

Lemma all_digits_lstrip s : all_digits s = true -> lstrip s = s.
Proof.
  destruct s as [|c s]; simpl; [reflexivity|].
  intros H. apply andb_prop in H as [Hc _].
  now rewrite (is_digit_not_space _ Hc).
Qed.

Lemma all_digits_strip s : all_digits s = true -> strip s = s.
Proof.
  intros H. unfold strip. rewrite (all_digits_lstrip _ H).
  now apply all_digits_rstrip.
Qed.

Lemma all_digits_digits_of s :
  all_digits s = true -> digits_of true s = Some s.
Proof.
  induction s as [|c s IH]; simpl; [reflexivity|].
  intros H. apply andb_prop in H as [Hc Hs].
  destruct (is_digit_not_mark _ Hc) as (_ & _ & Hu & _).
  now rewrite Hu, Hc, (IH Hs).
Qed.

Lemma all_digits_uint s :
  all_digits s = true -> exists u, NilEmpty.uint_of_string s = Some u.
Proof.
  induction s as [|c s IH]; simpl; [now eexists|].
  intros H. apply andb_prop in H as [Hc Hs].
  destruct (IH Hs) as [u ->].
  destruct (is_digit_uint c u Hc) as (u' & -> & _). now eexists.
Qed.

(** On a text of digits [int] only checks the number of digits. *)
Lemma int_digits_unfold c s :
  all_digits (String c s) = true ->
  int (String c s)
  = if int_max_str_digits <? Z.of_nat (String.length (String c s))
    then Raise ValueError
    else match NilEmpty.uint_of_string (String c s) with
         | Some u => Ok (Z.of_uint u)
         | None => Raise ValueError
         end.
Proof.
  intros H. unfold int. rewrite (all_digits_strip _ H).
  pose proof H as H'. simpl in H'. apply andb_prop in H' as [Hc Hs].
  destruct (is_digit_not_mark _ Hc) as (Hm & Hp & Hus & _).
  rewrite Hm, Hp. cbn [digits_of]. rewrite Hus, Hc.
  rewrite (all_digits_digits_of _ Hs). cbn [option_map].
  destruct (int_max_str_digits <? Z.of_nat (String.length (String c s)));
    [reflexivity|].
  now destruct (NilEmpty.uint_of_string (String c s)).
Qed.

Lemma int_all_digits c s u :
  all_digits (String c s) = true ->
  Z.of_nat (String.length (String c s)) <= int_max_str_digits ->
  NilEmpty.uint_of_string (String c s) = Some u ->
  int (String c s) = Ok (Z.of_uint u).
Proof.
  intros H Hlen Hu. rewrite (int_digits_unfold c s H), Hu.
  now destruct (Z.ltb_spec int_max_str_digits
                  (Z.of_nat (String.length (String c s)))); [lia|].
Qed.

Lemma int_all_digits_inv c s n :
  all_digits (String c s) = true ->
  int (String c s) = Ok n ->
  exists u, NilEmpty.uint_of_string (String c s) = Some u /\ n = Z.of_uint u
            /\ Z.of_nat (String.length (String c s)) <= int_max_str_digits.
Proof.
  intros H. rewrite (int_digits_unfold c s H).
  destruct (Z.ltb_spec int_max_str_digits
              (Z.of_nat (String.length (String c s)))); [discriminate|].
  destruct (NilEmpty.uint_of_string (String c s)) as [u|]; [|discriminate].
  intros [= <-]. exists u. auto.
Qed.

Lemma all_digits_no_char sep s :
  (forall c, is_digit c = true -> Ascii.eqb sep c = false) ->
  all_digits s = true -> contains sep s = false.
Proof.
  intros Hsep. induction s as [|c s IH]; simpl; [reflexivity|].
  intros H. apply andb_prop in H as [Hc Hs].
  now rewrite (Hsep _ Hc), (IH Hs).
Qed.

Lemma all_digits_no_dot s : all_digits s = true -> contains "." s = false.
Proof.
  apply all_digits_no_char. intros c Hc. rewrite Ascii.eqb_sym.
  now destruct (is_digit_not_mark _ Hc) as (_ & _ & _ & ? & _).
Qed.

Lemma all_digits_no_slash s : all_digits s = true -> contains "/" s = false.
Proof.
  apply all_digits_no_char. intros c Hc. rewrite Ascii.eqb_sym.
  now destruct (is_digit_not_mark _ Hc) as (_ & _ & _ & _ & ?).
Qed.

(** The decimal text of a digit sequence. *)
Lemma string_of_uint_digits u : all_digits (NilEmpty.string_of_uint u) = true.
Proof. induction u; simpl; auto. Qed.

Lemma string_of_uint_nonnil u :
  u <> Decimal.Nil -> NilZero.string_of_uint u = NilEmpty.string_of_uint u.
Proof. destruct u; [congruence | reflexivity ..]. Qed.

Lemma string_of_uint_cons u :
  u <> Decimal.Nil -> exists c s, NilEmpty.string_of_uint u = String c s.
Proof. destruct u; [congruence | simpl; eauto ..]. Qed.

Lemma to_int_nonneg z :
  0 <= z -> exists u, Z.to_int z = Decimal.Pos u /\ u <> Decimal.Nil.
Proof.
  destruct z as [|p|p]; intros Hz; [| |lia]; simpl; eexists; split;
    try reflexivity; [discriminate | apply DecimalPos.Unsigned.to_uint_nonnil].
Qed.

(** [str] of a natural number is a nonempty text of digits, and [int]
    reads it back. *)
Lemma str_int_digits z :
  0 <= z -> all_digits (str_int z) = true /\ str_int z <> "".
Proof.
  intros Hz. destruct (to_int_nonneg z Hz) as (u & Hu & Hn).
  unfold str_int. rewrite Hu. cbn [NilZero.string_of_int].
  rewrite (string_of_uint_nonnil u Hn). split.
  - apply string_of_uint_digits.
  - destruct (string_of_uint_cons u Hn) as (c & s & ->). discriminate.
Qed.

Lemma int_str_int z :
  0 <= z -> Z.of_nat (String.length (str_int z)) <= int_max_str_digits ->
  int (str_int z) = Ok z.
Proof.
  intros Hz Hlen. destruct (str_int_digits z Hz) as [Hd _].
  destruct (to_int_nonneg z Hz) as (u & Hu & Hn).
  pose proof (DecimalZ.of_to z) as Hof. rewrite Hu in Hof. cbn [Z.of_int] in Hof.
  unfold str_int in *. rewrite Hu in *. cbn [NilZero.string_of_int] in *.
  rewrite (string_of_uint_nonnil u Hn) in *.
  destruct (string_of_uint_cons u Hn) as (c & s & E).
  rewrite E in Hd, Hlen. rewrite E.
  rewrite (int_all_digits c s u Hd Hlen); [now rewrite Hof|].
  rewrite <- E. apply NilEmpty.usu.
Qed.

End TextFacts.

Section CanonicalFacts.

Lemma of_uint_nonneg u : 0 <= Z.of_uint u.
Proof. unfold Z.of_uint. apply N2Z.is_nonneg. Qed.

(** A digit sequence that is its own normal form has no leading zero,
    unless it is the single digit zero. *)
Lemma unorm_fixed_head u :
  Decimal.unorm u = u ->
  match u with
  | Decimal.D0 Decimal.Nil => True
  | Decimal.D0 _ | Decimal.Nil => False
  | _ => True
  end.
Proof.
  destruct u as [|u| | | | | | | | |]; try exact (fun _ => I).
  - discriminate.
  - destruct u as [|u'| | | | | | | | |]; try exact (fun _ => I); intros H;
      rewrite unorm_D0 in H;
      match type of H with
      | Decimal.unorm ?v = _ =>
          assert (Hv : v <> Decimal.Nil) by discriminate;
          pose proof (nb_digits_unorm v Hv) as Hn; rewrite H in Hn;
          cbn [Decimal.nb_digits] in Hn; lia
      end.
Qed.

Lemma to_int_normal z u : Z.to_int z = Decimal.Pos u -> Decimal.unorm u = u.
Proof.
  intros Hu. pose proof (DecimalZ.to_of (Z.to_int z)) as H.
  rewrite DecimalZ.of_to, Hu in H. cbn [Decimal.norm] in H. congruence.
Qed.

Lemma str_int_no_leading_zero z : 0 <= z -> no_leading_zero (str_int z) = true.
Proof.
  intros Hz. destruct (to_int_nonneg z Hz) as (u & Hu & Hn).
  pose proof (unorm_fixed_head u (to_int_normal z u Hu)) as Hh.
  unfold str_int. rewrite Hu. cbn [NilZero.string_of_int].
  destruct u as [|u'| | | | | | | | |]; try reflexivity.
  destruct u'; try contradiction; reflexivity.
Qed.

(** Reading a canonical text and printing the number gives the text back. *)
Lemma str_int_int p n :
  all_digits p = true -> p <> "" -> no_leading_zero p = true ->
  int p = Ok n -> str_int n = p /\ 0 <= n.
Proof.
  intros Hd Hne Hz Hi. destruct p as [|c s]; [congruence|].
  destruct (int_all_digits_inv c s n Hd Hi) as (u & Hu & -> & _).
  split; [|apply of_uint_nonneg].
  pose proof (NilEmpty.sus _ _ Hu) as Hs.
  assert (Hnorm : Decimal.unorm u = u /\ u <> Decimal.Nil).
  { cbn [NilEmpty.uint_of_string] in Hu.
    destruct (NilEmpty.uint_of_string s) as [u0|] eqn:E0;
      [|discriminate Hu].
    simpl in Hd. apply andb_prop in Hd as [Hc _].
    destruct c as [[] [] [] [] [] [] [] []]; try discriminate Hc;
      cbn in Hu; injection Hu as <-; try (split; [reflexivity | discriminate]).
    destruct s; [|discriminate Hz]. cbn in E0. injection E0 as <-.
    split; [reflexivity | discriminate]. }
  destruct Hnorm as [Hnorm Hnil].
  unfold str_int.
  change (Z.of_uint u) with (Z.of_int (Decimal.Pos u)).
  rewrite DecimalZ.to_of. cbn [Decimal.norm NilZero.string_of_int].
  rewrite Hnorm, (string_of_uint_nonnil u Hnil). exact Hs.
Qed.

Lemma decimal_octet_spec p :
  decimal_octet p = true ->
  exists n, int p = Ok n /\ 0 <= n <= 255 /\ all_digits p = true /\ p <> "".
Proof.
  unfold decimal_octet. intros H.
  apply andb_prop in H as [H Hv]. apply andb_prop in H as [Hne Hd].
  assert (Hp : p <> "").
  { intros ->. discriminate Hne. }
  destruct p as [|c s]; [congruence|].
  destruct (int (String c s)) as [n|] eqn:Hi; [|discriminate Hv].
  destruct (int_all_digits_inv c s n Hd Hi) as (u & Hu & -> & _).
  exists (Z.of_uint u). pose proof (of_uint_nonneg u).
  apply Z.leb_le in Hv. repeat split; auto.
Qed.

Lemma canonical_octet_spec p :
  canonical_octet p = true ->
  exists n, int p = Ok n /\ 0 <= n <= 255 /\ str_int n = p
            /\ all_digits p = true.
Proof.
  unfold canonical_octet. intros H. apply andb_prop in H as [Hdec Hz].
  destruct (decimal_octet_spec p Hdec) as (n & Hi & Hr & Hd & Hne).
  exists n. destruct (str_int_int p n Hd Hne Hz Hi) as [Hs _]. auto.
Qed.

Lemma canonical_is_decimal p : canonical_octet p = true -> decimal_octet p = true.
Proof. unfold canonical_octet. intros H. now apply andb_prop in H as [H _]. Qed.

Lemma string_of_uint_length u :
  String.length (NilEmpty.string_of_uint u) = Decimal.nb_digits u.
Proof. induction u; cbn [NilEmpty.string_of_uint String.length Decimal.nb_digits]; congruence. Qed.

Lemma of_uint_acc_lower u acc :
  Z.pos acc * 10 ^ Z.of_nat (Decimal.nb_digits u) <= Z.pos (Pos.of_uint_acc u acc).
Proof.
  revert acc. induction u as [|u IH|u IH|u IH|u IH|u IH|u IH|u IH|u IH|u IH|u IH];
    intros acc; cbn [Pos.of_uint_acc Decimal.nb_digits];
    [rewrite Z.pow_0_r; lia | ..];
    rewrite Nat2Z.inj_succ, Z.pow_succ_r by lia;
    (eapply Z.le_trans; [|apply IH]);
    assert (0 < 10 ^ Z.of_nat (Decimal.nb_digits u)) by (apply Z.pow_pos_nonneg; lia);
    nia.
Qed.

(** A positive number below [10^k] is written with at most [k] digits. *)
Lemma to_uint_digits p k :
  0 <= k -> Z.pos p < 10 ^ k -> Z.of_nat (Decimal.nb_digits (Pos.to_uint p)) <= k.
Proof.
  intros Hk Hp.
  pose proof (DecimalPos.Unsigned.of_to p) as Hof.
  pose proof (DecimalPos.Unsigned.to_uint_nonzero p) as Hnz.
  pose proof (unorm_fixed_head (Pos.to_uint p)
                (to_int_normal (Z.pos p) _ eq_refl)) as Hhead.
  destruct (Z.le_gt_cases (Z.of_nat (Decimal.nb_digits (Pos.to_uint p))) k)
    as [Hle|Hgt]; [exact Hle | exfalso].
  destruct (Pos.to_uint p) as [|u|u|u|u|u|u|u|u|u|u];
    [contradiction
    | destruct u; [now apply Hnz | contradiction ..]
    | ..];
    cbn [Pos.of_uint] in Hof; injection Hof as Hof;
    cbn [Decimal.nb_digits] in Hgt; rewrite Nat2Z.inj_succ in Hgt;
    match type of Hof with
    | Pos.of_uint_acc ?v ?a = _ =>
        pose proof (of_uint_acc_lower v a) as Hlow; rewrite Hof in Hlow;
        assert (10 ^ k <= 10 ^ Z.of_nat (Decimal.nb_digits v))
          by (apply Z.pow_le_mono_r; lia);
        nia
    end.
Qed.

Lemma str_int_length z k :
  0 <= z < 10 ^ k -> 1 <= k -> Z.of_nat (String.length (str_int z)) <= k.
Proof.
  intros Hz Hk. destruct z as [|p|p]; [cbn; lia | | lia].
  unfold str_int. cbn [Z.to_int NilZero.string_of_int].
  rewrite (string_of_uint_nonnil _ (DecimalPos.Unsigned.to_uint_nonnil p)).
  rewrite string_of_uint_length. apply to_uint_digits; lia.
Qed.

Lemma int_str_int_octet z : 0 <= z <= 255 -> int (str_int z) = Ok z.
Proof.
  intros Hz. apply int_str_int; [lia|].
  pose proof (str_int_length z 3 ltac:(lia) ltac:(lia)).
  unfold int_max_str_digits. lia.
Qed.

(** The decimal text of an octet is canonical. *)
Lemma str_int_canonical n : 0 <= n <= 255 -> canonical_octet (str_int n) = true.
Proof.
  intros Hn. assert (Hz : 0 <= n) by lia.
  destruct (str_int_digits n Hz) as [Hd Hne].
  unfold canonical_octet, decimal_octet.
  rewrite Hd, (int_str_int_octet n Hn).
  rewrite (str_int_no_leading_zero n Hz).
  apply String.eqb_neq in Hne. rewrite Hne.
  cbn. rewrite andb_true_r. apply Z.leb_le. lia.
Qed.

End CanonicalFacts.

Section SplitFacts.

Variable sep : ascii.

Lemma split_nonempty s : split sep s <> [].
Proof.
  destruct s as [|c s]; simpl; [discriminate|].
  destruct (Ascii.eqb c sep); [discriminate|].
  destruct (split sep s); discriminate.
Qed.

Lemma split_no_sep s : contains sep s = false -> split sep s = [s].
Proof.
  induction s as [|c s IH]; simpl; [reflexivity|].
  intros H. apply orb_false_elim in H as [Hc Hs].
  rewrite Ascii.eqb_sym, Hc, (IH Hs). reflexivity.
Qed.

Lemma split_app p q :
  contains sep p = false -> split sep (p ++ String sep q) = p :: split sep q.
Proof.
  induction p as [|c p IH]; simpl.
  - intros _. now rewrite Ascii.eqb_refl.
  - intros H. apply orb_false_elim in H as [Hc Hp].
    rewrite Ascii.eqb_sym, Hc, (IH Hp). reflexivity.
Qed.

(** Joining the parts with the separator gives the text back. *)
Lemma concat_split s : String.concat (String sep "") (split sep s) = s.
Proof.
  induction s as [|c s IH]; simpl; [reflexivity|].
  destruct (Ascii.eqb_spec c sep) as [->|Hc].
  - pose proof (split_nonempty s) as Hne.
    cbn [String.concat]. destruct (split sep s) eqn:E; [congruence|].
    rewrite IH. reflexivity.
  - pose proof (split_nonempty s) as Hne.
    destruct (split sep s) as [|part parts] eqn:E; [congruence|].
    cbn [String.concat] in *. destruct parts; simpl; now rewrite <- IH.
Qed.

(** Whatever precedes the last separator, the last part is what follows it. *)
Lemma split_last_part pre t :
  contains sep t = false ->
  exists front, split sep (pre ++ String sep t) = (front ++ [t])%list
                /\ front <> [].
Proof.
  intros Ht. induction pre as [|c pre (front & E & Hne)]; simpl.
  - rewrite Ascii.eqb_refl, (split_no_sep t Ht).
    exists [""]. split; [reflexivity | discriminate].
  - rewrite E. destruct (Ascii.eqb c sep).
    + exists ("" :: front). split; [reflexivity | discriminate].
    + destruct front as [|part parts]; [congruence|].
      exists (String c part :: parts). split; [reflexivity | discriminate].
Qed.

Lemma index_last {A : Type} (front : list A) (x : A) :
  index (front ++ [x])%list (-1) = Ok x.
Proof.
  unfold index. rewrite length_app. cbn [List.length Z.ltb Z.compare].
  replace (-1 + Z.of_nat (List.length front + 1))
    with (Z.of_nat (List.length front)) by lia.
  destruct (Z.ltb_spec (Z.of_nat (List.length front)) 0); [lia|].
  destruct (Z.leb_spec (Z.of_nat (List.length front + 1))
                       (Z.of_nat (List.length front))); [lia|].
  cbn [orb]. rewrite Nat2Z.id, nth_error_app2, Nat.sub_diag by lia.
  reflexivity.
Qed.

Lemma split_index_last pre t :
  contains sep t = false -> index (split sep (pre ++ String sep t)) (-1) = Ok t.
Proof.
  intros Ht. destruct (split_last_part pre t Ht) as (front & -> & _).
  apply index_last.
Qed.

End SplitFacts.

Section BitFacts.

Lemma lor_low (hi lo k : Z) :
  0 <= k -> 0 <= lo < 2 ^ k -> Z.lor lo (Z.shiftl hi k) = lo + hi * 2 ^ k.
Proof.
  intros Hk Hlo. rewrite <- Z.lxor_lor, <- Z.add_nocarry_lxor.
  - now rewrite Z.shiftl_mul_pow2.
  - apply Z.bits_inj'. intros i Hi. rewrite Z.land_spec, Z.bits_0.
    destruct (Z.lt_ge_cases i k) as [Hlt|Hge].
    + now rewrite Z.shiftl_spec_low, andb_false_r.
    + rewrite <- (Z.mod_small lo (2 ^ k)) by lia.
      now rewrite Z.mod_pow2_bits_high by lia.
  - apply Z.bits_inj'. intros i Hi. rewrite Z.land_spec, Z.bits_0.
    destruct (Z.lt_ge_cases i k) as [Hlt|Hge].
    + now rewrite Z.shiftl_spec_low, andb_false_r.
    + rewrite <- (Z.mod_small lo (2 ^ k)) by lia.
      now rewrite Z.mod_pow2_bits_high by lia.
Qed.

Lemma lor_pack (a b c d : Z) :
  0 <= a <= 255 -> 0 <= b <= 255 -> 0 <= c <= 255 -> 0 <= d <= 255 ->
  Z.lor (Z.shiftl d 0)
        (Z.lor (Z.shiftl c 8) (Z.lor (Z.shiftl b 16) (Z.lor (Z.shiftl a 24) 0)))
  = pack a b c d.
Proof.
  intros Ha Hb Hc Hd. unfold pack.
  rewrite Z.lor_0_r, Z.shiftl_0_r.
  rewrite (Z.shiftl_mul_pow2 b 16), (Z.shiftl_mul_pow2 c 8) by lia.
  rewrite (lor_low a (b * 2 ^ 16) 24) by lia.
  replace (b * 2 ^ 16 + a * 2 ^ 24) with (Z.shiftl (b + a * 2 ^ 8) 16)
    by (rewrite Z.shiftl_mul_pow2; lia).
  rewrite (lor_low _ (c * 2 ^ 8) 16) by lia.
  replace (c * 2 ^ 8 + (b + a * 2 ^ 8) * 2 ^ 16)
    with (Z.shiftl (c + b * 2 ^ 8 + a * 2 ^ 16) 8)
    by (rewrite Z.shiftl_mul_pow2; lia).
  rewrite (lor_low _ d 8) by lia. lia.
Qed.

Lemma pack_range (a b c d : Z) :
  0 <= a <= 255 -> 0 <= b <= 255 -> 0 <= c <= 255 -> 0 <= d <= 255 ->
  0 <= pack a b c d < 2 ^ 32.
Proof. unfold pack. lia. Qed.

Lemma octet_div (v i : Z) : 0 <= i -> octet v i = (v / 2 ^ i) mod 256.
Proof.
  intros Hi. unfold octet. rewrite Z.shiftr_div_pow2 by lia.
  change 255 with (Z.ones 8). now rewrite Z.land_ones by lia.
Qed.

Lemma octet_range (v i : Z) : 0 <= i -> 0 <= octet v i <= 255.
Proof.
  intros Hi. rewrite octet_div by lia.
  pose proof (Z.mod_pos_bound (v / 2 ^ i) 256). lia.
Qed.

Lemma octet_pack (a b c d : Z) :
  0 <= a <= 255 -> 0 <= b <= 255 -> 0 <= c <= 255 -> 0 <= d <= 255 ->
  octet (pack a b c d) 24 = a /\ octet (pack a b c d) 16 = b
  /\ octet (pack a b c d) 8 = c /\ octet (pack a b c d) 0 = d.
Proof.
  intros Ha Hb Hc Hd. rewrite !octet_div by lia. unfold pack.
  change (2 ^ 24) with 16777216. change (2 ^ 16) with 65536.
  change (2 ^ 8) with 256. change (2 ^ 0) with 1.
  repeat split; Z.div_mod_to_equations; lia.
Qed.

Lemma pack_octet (v : Z) :
  0 <= v < 2 ^ 32 ->
  pack (octet v 24) (octet v 16) (octet v 8) (octet v 0) = v.
Proof.
  intros Hv. rewrite !octet_div by lia. unfold pack.
  change (2 ^ 32) with 4294967296 in Hv.
  change (2 ^ 24) with 16777216. change (2 ^ 16) with 65536.
  change (2 ^ 8) with 256. change (2 ^ 0) with 1.
  Z.div_mod_to_equations; lia.
Qed.

Lemma set_bit_ok (num digit : Z) :
  0 <= digit -> set_bit num digit = Ok (Z.lor num (2 ^ digit)).
Proof.
  intros Hd. unfold set_bit, lshift.
  destruct (Z.ltb_spec digit 0); [lia|]. cbn [bind]. now rewrite Z.shiftl_1_l.
Qed.

(** The loop of [set_bits] over [count] consecutive positions from
    [b + first] sets exactly those bits. *)
Lemma set_bit_loop (b : Z) (count first : nat) (num : Z) :
  0 <= b ->
  exists r,
    for_each (map (fun k => b + 1 * Z.of_nat k) (seq first count)) set_bit num
    = Ok r
    /\ forall i, 0 <= i ->
         Z.testbit r i
         = Z.testbit num i
           || ((b + Z.of_nat first <=? i)
               && (i <? b + Z.of_nat first + Z.of_nat count)).
Proof.
  intros Hb. revert first num.
  induction count as [|count IH]; intros first num; cbn [seq map for_each].
  - exists num. split; [reflexivity|]. intros i Hi.
    destruct (Z.leb_spec (b + Z.of_nat first) i),
      (Z.ltb_spec i (b + Z.of_nat first + Z.of_nat 0));
      cbn; try lia; now rewrite orb_false_r.
  - rewrite set_bit_ok by lia. cbn [bind].
    destruct (IH (S first) (Z.lor num (2 ^ (b + 1 * Z.of_nat first))))
      as (r & -> & Hr).
    exists r. split; [reflexivity|]. intros i Hi.
    rewrite (Hr i Hi), Z.lor_spec, Z.pow2_bits_eqb by lia.
    destruct (Z.eqb_spec (b + 1 * Z.of_nat first) i),
      (Z.leb_spec (b + Z.of_nat (S first)) i),
      (Z.ltb_spec i (b + Z.of_nat (S first) + Z.of_nat count)),
      (Z.leb_spec (b + Z.of_nat first) i),
      (Z.ltb_spec i (b + Z.of_nat first + Z.of_nat (S count)));
      cbn; try lia; rewrite ?orb_false_r, ?orb_true_r; reflexivity.
Qed.

Lemma mask_of_bits (n i : Z) :
  0 <= n <= 32 -> 0 <= i ->
  Z.testbit (mask_of n) i = (32 - n <=? i) && (i <? 32).
Proof.
  intros Hn Hi. unfold mask_of.
  replace (2 ^ 32 - 2 ^ (32 - n)) with (Z.shiftl (Z.ones n) (32 - n)).
  - rewrite Z.shiftl_spec, Z.testbit_ones by lia.
    destruct (Z.leb_spec 0 (i - (32 - n))), (Z.ltb_spec (i - (32 - n)) n),
      (Z.leb_spec (32 - n) i), (Z.ltb_spec i 32); cbn; try lia; reflexivity.
  - rewrite Z.shiftl_mul_pow2, Z.ones_equiv by lia.
    replace 32 with (n + (32 - n)) at 2 by lia.
    rewrite Z.pow_add_r by lia. lia.
Qed.

Lemma set_bits_mask (n : Z) :
  0 <= n <= 32 -> set_bits 0 (32 - n) 32 = Ok (mask_of n).
Proof.
  intros Hn. unfold set_bits, range, range3.
  destruct (set_bit_loop (32 - n) (Z.to_nat ((32 - (32 - n) + 1 - 1) / 1)) 0 0)
    as (r & -> & Hr); [lia|].
  f_equal. apply Z.bits_inj'. intros i Hi.
  rewrite (Hr i Hi), (mask_of_bits n i Hn Hi), Z.bits_0, Z.div_1_r.
  cbn [orb]. f_equal; [f_equal; lia|f_equal; lia].
Qed.

End BitFacts.

Section AddressFacts.

Lemma ipv4_to_value_parts s a b c d va vb vc vd :
  split "." s = [a; b; c; d] ->
  int a = Ok va -> int b = Ok vb -> int c = Ok vc -> int d = Ok vd ->
  ipv4_to_value s
  = Ok (Z.lor (Z.shiftl vd 0)
          (Z.lor (Z.shiftl vc 8) (Z.lor (Z.shiftl vb 16) (Z.lor (Z.shiftl va 24) 0)))).
Proof.
  intros Hs Ha Hb Hc Hd. unfold ipv4_to_value. rewrite Hs.
  cbn [for_each]. rewrite Ha. cbn. rewrite Hb. cbn. rewrite Hc. cbn.
  rewrite Hd. reflexivity.
Qed.

Lemma split_dotted a b c d :
  all_digits a = true -> all_digits b = true -> all_digits c = true ->
  all_digits d = true ->
  split "." (a ++ "." ++ b ++ "." ++ c ++ "." ++ d) = [a; b; c; d].
Proof.
  intros Ha Hb Hc Hd. cbn [append].
  rewrite !split_app by now apply all_digits_no_dot.
  now rewrite split_no_sep by now apply all_digits_no_dot.
Qed.

Lemma dotted_of_split s a b c d :
  split "." s = [a; b; c; d] -> s = a ++ "." ++ b ++ "." ++ c ++ "." ++ d.
Proof.
  intros Hs. rewrite <- (concat_split "." s) at 1. now rewrite Hs.
Qed.

Lemma ipv4_to_value_decimal s :
  decimal_ipv4 s = true ->
  exists a b c d va vb vc vd,
    split "." s = [a; b; c; d]
    /\ (int a = Ok va /\ int b = Ok vb /\ int c = Ok vc /\ int d = Ok vd)
    /\ (0 <= va <= 255 /\ 0 <= vb <= 255 /\ 0 <= vc <= 255 /\ 0 <= vd <= 255)
    /\ ipv4_to_value s = Ok (pack va vb vc vd).
Proof.
  unfold decimal_ipv4. intros H.
  destruct (split "." s) as [|a [|b [|c [|d [|e l]]]]] eqn:Hs; try discriminate H.
  apply andb_prop in H as [H Hd]. apply andb_prop in H as [H Hc].
  apply andb_prop in H as [Ha Hb].
  destruct (decimal_octet_spec a Ha) as (va & Ia & Ra & _).
  destruct (decimal_octet_spec b Hb) as (vb & Ib & Rb & _).
  destruct (decimal_octet_spec c Hc) as (vc & Ic & Rc & _).
  destruct (decimal_octet_spec d Hd) as (vd & Id & Rd & _).
  exists a, b, c, d, va, vb, vc, vd. repeat split; try assumption; try lia.
  rewrite (ipv4_to_value_parts s a b c d va vb vc vd Hs Ia Ib Ic Id).
  now rewrite lor_pack.
Qed.

Lemma ipv4_to_value_total s :
  decimal_ipv4 s = true -> exists v, ipv4_to_value s = Ok v /\ 0 <= v < 2 ^ 32.
Proof.
  intros H.
  destruct (ipv4_to_value_decimal s H)
    as (a & b & c & d & va & vb & vc & vd & _ & _ & (Ra & Rb & Rc & Rd) & ->).
  eexists. split; [reflexivity | now apply pack_range].
Qed.

Lemma canonical_is_decimal_ipv4 s : canonical_ipv4 s = true -> decimal_ipv4 s = true.
Proof.
  unfold canonical_ipv4, decimal_ipv4.
  destruct (split "." s) as [|a [|b [|c [|d [|e l]]]]]; try discriminate.
  intros H. apply andb_prop in H as [H Hd]. apply andb_prop in H as [H Hc].
  apply andb_prop in H as [Ha Hb].
  now rewrite !canonical_is_decimal.
Qed.

Lemma value_to_ipv4_octets v :
  value_to_ipv4 v
  = Ok (PStr (str_int (octet v 24) ++ "." ++ str_int (octet v 16) ++ "."
              ++ str_int (octet v 8) ++ "." ++ str_int (octet v 0))).
Proof.
  unfold value_to_ipv4.
  change (range3 0 32 8) with [0; 8; 16; 24].
  cbn [fold_left reduce str]. fold (octet v 24) (octet v 16) (octet v 8) (octet v 0).
  do 2 f_equal. now rewrite !append_assoc.
Qed.

(** Printing a value and reading it back. *)
Lemma ipv4_to_value_of_value v :
  0 <= v < 2 ^ 32 ->
  exists s, value_to_ipv4 v = Ok (PStr s) /\ canonical_ipv4 s = true
            /\ ipv4_to_value s = Ok v.
Proof.
  intros Hv. rewrite value_to_ipv4_octets. eexists. split; [reflexivity|].
  pose proof (octet_range v 24 ltac:(lia)) as R3.
  pose proof (octet_range v 16 ltac:(lia)) as R2.
  pose proof (octet_range v 8 ltac:(lia)) as R1.
  pose proof (octet_range v 0 ltac:(lia)) as R0.
  assert (Hs : split "." (str_int (octet v 24) ++ "." ++ str_int (octet v 16) ++ "."
                          ++ str_int (octet v 8) ++ "." ++ str_int (octet v 0))
               = [str_int (octet v 24); str_int (octet v 16);
                  str_int (octet v 8); str_int (octet v 0)]).
  { apply split_dotted; apply str_int_digits; lia. }
  split.
  - unfold canonical_ipv4. rewrite Hs.
    now rewrite (str_int_canonical _ R3), (str_int_canonical _ R2),
      (str_int_canonical _ R1), (str_int_canonical _ R0).
  - rewrite (ipv4_to_value_parts _ _ _ _ _ _ _ _ _ Hs
               (int_str_int_octet _ R3) (int_str_int_octet _ R2)
               (int_str_int_octet _ R1) (int_str_int_octet _ R0)).
    now rewrite lor_pack, pack_octet.
Qed.

(** Reading a canonical address and printing the value. *)
Lemma value_to_ipv4_of_address s :
  canonical_ipv4 s = true ->
  exists v, ipv4_to_value s = Ok v /\ 0 <= v < 2 ^ 32
            /\ value_to_ipv4 v = Ok (PStr s).
Proof.
  intros H. pose proof H as Hc. unfold canonical_ipv4 in Hc.
  destruct (split "." s) as [|a [|b [|c [|d [|e l]]]]] eqn:Hs; try discriminate Hc.
  apply andb_prop in Hc as [Hc Hd]. apply andb_prop in Hc as [Hc Hcc].
  apply andb_prop in Hc as [Ha Hb].
  destruct (canonical_octet_spec a Ha) as (va & Ia & Ra & Sa & _).
  destruct (canonical_octet_spec b Hb) as (vb & Ib & Rb & Sb & _).
  destruct (canonical_octet_spec c Hcc) as (vc & Ic & Rc & Sc & _).
  destruct (canonical_octet_spec d Hd) as (vd & Id & Rd & Sd & _).
  exists (pack va vb vc vd).
  rewrite (ipv4_to_value_parts s a b c d va vb vc vd Hs Ia Ib Ic Id), lor_pack
    by assumption.
  split; [reflexivity|]. split; [now apply pack_range|].
  rewrite value_to_ipv4_octets.
  destruct (octet_pack va vb vc vd Ra Rb Rc Rd) as (-> & -> & -> & ->).
  rewrite Sa, Sb, Sc, Sd. now rewrite (dotted_of_split s a b c d Hs).
Qed.

(** Distinct canonical addresses have distinct values. *)
Lemma ipv4_to_value_inj s1 s2 v :
  canonical_ipv4 s1 = true -> canonical_ipv4 s2 = true ->
  ipv4_to_value s1 = Ok v -> ipv4_to_value s2 = Ok v -> s1 = s2.
Proof.
  intros H1 H2 E1 E2.
  destruct (value_to_ipv4_of_address s1 H1) as (v1 & F1 & _ & P1).
  destruct (value_to_ipv4_of_address s2 H2) as (v2 & F2 & _ & P2).
  congruence.
Qed.

Lemma get_subnet_mask_value_slash slash n :
  slash_notation slash n -> 0 <= n <= 32 ->
  get_subnet_mask_value slash = Ok (mask_of n).
Proof.
  intros [pre ->] Hn. unfold get_subnet_mask_value.
  destruct (str_int_digits n (proj1 Hn)) as [Hd _].
  change (pre ++ "/" ++ str_int n) with (pre ++ String "/" (str_int n)).
  rewrite split_index_last by now apply all_digits_no_slash.
  cbn [bind]. rewrite int_str_int_octet by lia. cbn [bind].
  now apply set_bits_mask.
Qed.

Lemma ips_same_subnet_value ip1 ip2 slash n v1 v2 :
  slash_notation slash n -> 0 <= n <= 32 ->
  ipv4_to_value ip1 = Ok v1 -> ipv4_to_value ip2 = Ok v2 ->
  ips_same_subnet ip1 ip2 slash
  = Ok (Z.land v1 (mask_of n) =? Z.land v2 (mask_of n)).
Proof.
  intros Hs Hn E1 E2. unfold ips_same_subnet.
  rewrite (get_subnet_mask_value_slash slash n Hs Hn). cbn [bind].
  rewrite E1, E2. reflexivity.
Qed.

End AddressFacts.

(** ** The properties of the specification *)

(** C1. Round trip: for every canonical dotted-decimal address [s] (four
    decimal parts, each 0-255, no leading zeros), printing the value read
    from [s] gives [s] back; and for every value [v] in [0, 2^32-1], reading
    the address printed for [v] gives [v] back. *)
Theorem address_value_round_trip (s : string) (v : Z) :
  canonical_ipv4 s = true -> 0 <= v < 2 ^ 32 ->
  (exists x, ipv4_to_value s = Ok x /\ value_to_ipv4 x = Ok (PStr s))
  /\ (exists t, value_to_ipv4 v = Ok (PStr t) /\ ipv4_to_value t = Ok v).
Proof.
  intros Hs Hv. split.
  - destruct (value_to_ipv4_of_address s Hs) as (x & Hx & _ & Hp). eauto.
  - destruct (ipv4_to_value_of_value v Hv) as (t & Ht & _ & Hr). eauto.
Qed.

Lemma address_value_round_trip_witness :
  canonical_ipv4 "192.168.0.1" = true /\ 0 <= 4294901760 < 2 ^ 32
  /\ (exists x, ipv4_to_value "192.168.0.1" = Ok x
                /\ value_to_ipv4 x = Ok (PStr "192.168.0.1"))
  /\ (exists t, value_to_ipv4 4294901760 = Ok (PStr t)
                /\ ipv4_to_value t = Ok 4294901760).
Proof.
  split; [reflexivity|]. split; [lia|].
  apply (address_value_round_trip "192.168.0.1" 4294901760); [reflexivity | lia].
Defined.

(** C2. For well-formed dotted-decimal addresses [ip1], [ip2] and a prefix
    length from 1 to 31 in slash notation, [ips_same_subnet] returns true
    exactly when the two values agree under the mask that
    [get_subnet_mask_value] returns for the slash text; the two documented
    examples evaluate to true and to false. *)
Theorem ips_same_subnet_compares_masked (ip1 ip2 slash : string) (n : Z) :
  decimal_ipv4 ip1 = true -> decimal_ipv4 ip2 = true ->
  1 <= n <= 31 -> slash_notation slash n ->
  (exists v1 v2 mask,
      ipv4_to_value ip1 = Ok v1 /\ ipv4_to_value ip2 = Ok v2
      /\ get_subnet_mask_value slash = Ok mask
      /\ ips_same_subnet ip1 ip2 slash = Ok (Z.land v1 mask =? Z.land v2 mask)
      /\ (ips_same_subnet ip1 ip2 slash = Ok true
          <-> Z.land v1 mask = Z.land v2 mask))
  /\ ips_same_subnet "10.23.121.17" "10.23.121.225" "/23" = Ok true
  /\ ips_same_subnet "10.23.230.22" "10.24.121.225" "/16" = Ok false.
Proof.
  intros H1 H2 Hn Hs. split; [|split; reflexivity].
  destruct (ipv4_to_value_total ip1 H1) as (v1 & E1 & _).
  destruct (ipv4_to_value_total ip2 H2) as (v2 & E2 & _).
  assert (Hn' : 0 <= n <= 32) by lia.
  exists v1, v2, (mask_of n).
  rewrite (ips_same_subnet_value ip1 ip2 slash n v1 v2 Hs Hn' E1 E2).
  repeat split; auto using get_subnet_mask_value_slash.
  - intros [= H]. now apply Z.eqb_eq.
  - intros H. f_equal. now apply Z.eqb_eq.
Qed.

Lemma ips_same_subnet_compares_masked_witness :
  decimal_ipv4 "10.23.121.17" = true /\ decimal_ipv4 "10.23.230.22" = true
  /\ 1 <= 9 <= 31 /\ slash_notation "10.0.0.0/9" 9
  /\ (exists v1 v2 mask,
         ipv4_to_value "10.23.121.17" = Ok v1
         /\ ipv4_to_value "10.23.230.22" = Ok v2
         /\ get_subnet_mask_value "10.0.0.0/9" = Ok mask
         /\ ips_same_subnet "10.23.121.17" "10.23.230.22" "10.0.0.0/9"
            = Ok (Z.land v1 mask =? Z.land v2 mask)
         /\ (ips_same_subnet "10.23.121.17" "10.23.230.22" "10.0.0.0/9" = Ok true
             <-> Z.land v1 mask = Z.land v2 mask)).
Proof.
  assert (Hs : slash_notation "10.0.0.0/9" 9) by (exists "10.0.0.0"; reflexivity).
  split; [reflexivity|]. split; [reflexivity|]. split; [lia|]. split; [exact Hs|].
  apply (ips_same_subnet_compares_masked "10.23.121.17" "10.23.230.22"
           "10.0.0.0/9" 9); [reflexivity | reflexivity | lia | exact Hs].
Defined.

(** C3. For every prefix length [n] in [0, 32], [get_subnet_mask_value] on a
    text ending in ["/n"] returns the 32-bit value whose high-order [n] bits
    are 1 and whose other bits are 0; whatever precedes the last ["/"] is
    ignored, so the mask is that of the bare ["/n"].  In particular /0 gives
    0, /32 gives 0xFFFFFFFF, /16 gives 0xffff0000 and /23 gives 0xfffffe00. *)
Theorem get_subnet_mask_value_high_bits (pre : string) (n : Z) :
  0 <= n <= 32 ->
  (exists mask,
      get_subnet_mask_value (pre ++ "/" ++ str_int n) = Ok mask
      /\ get_subnet_mask_value ("/" ++ str_int n) = Ok mask
      /\ 0 <= mask < 2 ^ 32
      /\ mask = 2 ^ 32 - 2 ^ (32 - n)
      /\ forall i, 0 <= i -> Z.testbit mask i = (32 - n <=? i) && (i <? 32))
  /\ get_subnet_mask_value "/0" = Ok 0
  /\ get_subnet_mask_value "/32" = Ok 0xFFFFFFFF
  /\ get_subnet_mask_value "/16" = Ok 0xffff0000
  /\ get_subnet_mask_value "/23" = Ok 0xfffffe00
  /\ get_subnet_mask_value "10.20.30.40/23" = Ok 0xfffffe00.
Proof.
  intros Hn. split; [|repeat split; reflexivity].
  exists (mask_of n). split; [|split; [|split; [|split]]].
  - apply get_subnet_mask_value_slash; [now exists pre | exact Hn].
  - apply get_subnet_mask_value_slash; [now exists "" | exact Hn].
  - unfold mask_of.
    assert (0 < 2 ^ (32 - n)) by (apply Z.pow_pos_nonneg; lia).
    assert (2 ^ (32 - n) <= 2 ^ 32) by (apply Z.pow_le_mono_r; lia).
    lia.
  - reflexivity.
  - intros i Hi. now apply mask_of_bits.
Qed.

Lemma get_subnet_mask_value_high_bits_witness :
  0 <= 9 <= 32
  /\ exists mask,
      get_subnet_mask_value ("192.168.7.7" ++ "/" ++ str_int 9) = Ok mask
      /\ get_subnet_mask_value ("/" ++ str_int 9) = Ok mask
      /\ 0 <= mask < 2 ^ 32
      /\ mask = 2 ^ 32 - 2 ^ (32 - 9)
      /\ forall i, 0 <= i -> Z.testbit mask i = (32 - 9 <=? i) && (i <? 32).
Proof.
  split; [lia|].
  apply (proj1 (get_subnet_mask_value_high_bits "192.168.7.7" 9 ltac:(lia))).
Defined.

(** C4. For every dotted-decimal text of exactly four parts, each a decimal
    integer in 0-255, [ipv4_to_value] returns the sum of the parts shifted
    left by 24, 16, 8 and 0, the first part most significant; in particular
    "255.255.0.0" gives 0xffff0000 and "1.2.3.4" gives 0x01020304. *)
Theorem ipv4_to_value_sum_of_shifts (a b c d : string) :
  decimal_octet a = true -> decimal_octet b = true ->
  decimal_octet c = true -> decimal_octet d = true ->
  (exists va vb vc vd,
      int a = Ok va /\ int b = Ok vb /\ int c = Ok vc /\ int d = Ok vd
      /\ ipv4_to_value (a ++ "." ++ b ++ "." ++ c ++ "." ++ d)
         = Ok (Z.shiftl va 24 + Z.shiftl vb 16 + Z.shiftl vc 8 + Z.shiftl vd 0))
  /\ ipv4_to_value "255.255.0.0" = Ok 0xffff0000
  /\ ipv4_to_value "1.2.3.4" = Ok 0x01020304.
Proof.
  intros Ha Hb Hc Hd. split; [|split; reflexivity].
  destruct (decimal_octet_spec a Ha) as (va & Ia & Ra & Da & _).
  destruct (decimal_octet_spec b Hb) as (vb & Ib & Rb & Db & _).
  destruct (decimal_octet_spec c Hc) as (vc & Ic & Rc & Dc & _).
  destruct (decimal_octet_spec d Hd) as (vd & Id & Rd & Dd & _).
  exists va, vb, vc, vd. repeat split; try assumption.
  rewrite (ipv4_to_value_parts _ a b c d va vb vc vd
             (split_dotted a b c d Da Db Dc Dd) Ia Ib Ic Id).
  rewrite lor_pack by assumption. unfold pack.
  now rewrite !Z.shiftl_mul_pow2, Z.pow_0_r, Z.mul_1_r by lia.
Qed.

Lemma ipv4_to_value_sum_of_shifts_witness :
  decimal_octet "10" = true /\ decimal_octet "0" = true
  /\ decimal_octet "007" = true /\ decimal_octet "255" = true
  /\ exists va vb vc vd,
      int "10" = Ok va /\ int "0" = Ok vb /\ int "007" = Ok vc
      /\ int "255" = Ok vd
      /\ ipv4_to_value ("10" ++ "." ++ "0" ++ "." ++ "007" ++ "." ++ "255")
         = Ok (Z.shiftl va 24 + Z.shiftl vb 16 + Z.shiftl vc 8 + Z.shiftl vd 0).
Proof.
  repeat (split; [reflexivity|]).
  apply (proj1 (ipv4_to_value_sum_of_shifts "10" "0" "007" "255"
                  eq_refl eq_refl eq_refl eq_refl)).
Defined.

Section RouterFacts.

Lemma ips_same_subnet_total ip1 ip2 slash n :
  decimal_ipv4 ip1 = true -> decimal_ipv4 ip2 = true ->
  slash_notation slash n -> 0 <= n <= 32 ->
  exists b, ips_same_subnet ip1 ip2 slash = Ok b.
Proof.
  intros H1 H2 Hs Hn.
  destruct (ipv4_to_value_total ip1 H1) as (v1 & E1 & _).
  destruct (ipv4_to_value_total ip2 H2) as (v2 & E2 & _).
  rewrite (ips_same_subnet_value ip1 ip2 slash n v1 v2 Hs Hn E1 E2). eauto.
Qed.

Lemma getitem_lookup {V : Type} (d : dict V) k v :
  lookup d k = Some v -> getitem d k = Ok v.
Proof. unfold getitem. now intros ->. Qed.

End RouterFacts.

(** C5 as the specification states it does not hold: the routers are visited
    in the order of the table, not in the order of their keys.  In this
    table both routers are on the subnet of the address; the router listed
    first is returned, though the other one has the smaller key. *)
Lemma find_router_not_in_key_order :
  find_router_for_ip
    [("1.2.4.1", [("netmask", "/8")]); ("1.2.3.1", [("netmask", "/8")])]
    "1.2.3.5"
  = Ok (Some "1.2.4.1")
  /\ sorted str_lt
       (keys [("1.2.4.1", [("netmask", "/8")]); ("1.2.3.1", [("netmask", "/8")])])
     = Ok ["1.2.3.1"; "1.2.4.1"]
  /\ ips_same_subnet "1.2.3.5" "1.2.3.1" "/8" = Ok true
  /\ find_router_for_ip
       [("1.2.3.1", [("netmask", "/8")]); ("1.2.4.1", [("netmask", "/8")])]
       "1.2.3.5"
     = Ok (Some "1.2.3.1").
Proof. repeat split; reflexivity. Qed.

(** C5, amended.  For every router table whose entries are well formed and
    every well-formed address, [find_router_for_ip] visits the routers in
    the order of the table, returns the key of the first router whose subnet
    contains the address, and returns [None], without raising, when no
    router's subnet contains it.  On the documented table it returns
    "1.2.3.1" for "1.2.3.5" and [None] for "1.2.5.6". *)
Theorem find_router_first_in_table_order (routers : dict router) (ip : string) :
  Forall router_entry_ok routers -> decimal_ipv4 ip = true ->
  (exists found,
      find_router_for_ip routers ip = Ok found
      /\ match found with
         | Some k =>
             exists before r after,
               routers = (before ++ (k, r) :: after)%list
               /\ on_subnet_of ip (k, r) true
               /\ Forall (fun e => on_subnet_of ip e false) before
         | None => Forall (fun e => on_subnet_of ip e false) routers
         end)
  /\ find_router_for_ip
       [("1.2.3.1", [("netmask", "/24")]); ("1.2.4.1", [("netmask", "/24")])]
       "1.2.3.5" = Ok (Some "1.2.3.1")
  /\ find_router_for_ip
       [("1.2.3.1", [("netmask", "/24")]); ("1.2.4.1", [("netmask", "/24")])]
       "1.2.5.6" = Ok None.
Proof.
  intros Hok Hip. split; [|split; reflexivity].
  induction Hok as [|[k r] rest (Hk & slash & n & Hl & Hs & Hn) _ IH].
  - exists None. split; [reflexivity | constructor].
  - destruct (ips_same_subnet_total ip k slash n Hip Hk Hs Hn) as [b Hb].
    cbn [find_router_for_ip]. cbn [fst snd] in *.
    rewrite (getitem_lookup r _ _ Hl). cbn [bind]. rewrite Hb. cbn [bind].
    destruct b.
    + exists (Some k). split; [reflexivity|].
      exists [], r, rest. repeat split; [|constructor].
      exists slash. now split.
    + destruct IH as (found & -> & Hfound). exists found. split; [reflexivity|].
      assert (Hhere : on_subnet_of ip (k, r) false) by (exists slash; now split).
      destruct found as [k'|].
      * destruct Hfound as (before & r' & after & -> & Hin & Hbefore).
        exists ((k, r) :: before), r', after. repeat split; auto.
      * now constructor.
Qed.

Lemma find_router_first_in_table_order_witness :
  Forall router_entry_ok
    [("10.0.0.1", [("netmask", "/8")]); ("10.1.0.1", [("netmask", "/16")])]
  /\ decimal_ipv4 "10.1.2.3" = true
  /\ exists found,
      find_router_for_ip
        [("10.0.0.1", [("netmask", "/8")]); ("10.1.0.1", [("netmask", "/16")])]
        "10.1.2.3" = Ok found
      /\ match found with
         | Some k =>
             exists before r after,
               [("10.0.0.1", [("netmask", "/8")]); ("10.1.0.1", [("netmask", "/16")])]
               = (before ++ (k, r) :: after)%list
               /\ on_subnet_of "10.1.2.3" (k, r) true
               /\ Forall (fun e => on_subnet_of "10.1.2.3" e false) before
         | None =>
             Forall (fun e => on_subnet_of "10.1.2.3" e false)
               [("10.0.0.1", [("netmask", "/8")]); ("10.1.0.1", [("netmask", "/16")])]
         end.
Proof.
  assert (Hok : Forall router_entry_ok
            [("10.0.0.1", [("netmask", "/8")]); ("10.1.0.1", [("netmask", "/16")])]).
  { repeat constructor.
    - exists "/8", 8. repeat split; [now exists "" | lia | lia].
    - exists "/16", 16. repeat split; [now exists "" | lia | lia]. }
  split; [exact Hok|]. split; [reflexivity|].
  apply (proj1 (find_router_first_in_table_order _ "10.1.2.3" Hok eq_refl)).
Defined.

(** C7. Boundary behaviour: for canonical dotted-decimal addresses [ip1] and
    [ip2], [ips_same_subnet] with "/0" is true, and with "/32" it is true
    exactly when the two are the same address. *)
Theorem ips_same_subnet_boundaries (ip1 ip2 : string) :
  canonical_ipv4 ip1 = true -> canonical_ipv4 ip2 = true ->
  ips_same_subnet ip1 ip2 "/0" = Ok true
  /\ exists b,
      ips_same_subnet ip1 ip2 "/32" = Ok b
      /\ (b = true <-> ip1 = ip2)
      /\ (b = true <-> ipv4_to_value ip1 = ipv4_to_value ip2).
Proof.
  intros H1 H2.
  destruct (ipv4_to_value_total ip1 (canonical_is_decimal_ipv4 _ H1))
    as (v1 & E1 & R1).
  destruct (ipv4_to_value_total ip2 (canonical_is_decimal_ipv4 _ H2))
    as (v2 & E2 & R2).
  assert (S0 : slash_notation "/0" 0) by now exists "".
  assert (S32 : slash_notation "/32" 32) by now exists "".
  rewrite (ips_same_subnet_value ip1 ip2 "/0" 0 v1 v2 S0 ltac:(lia) E1 E2).
  rewrite (ips_same_subnet_value ip1 ip2 "/32" 32 v1 v2 S32 ltac:(lia) E1 E2).
  change (mask_of 0) with 0. change (mask_of 32) with (Z.ones 32).
  rewrite !Z.land_0_r, !Z.land_ones, !Z.mod_small by lia.
  split; [reflexivity|]. exists (v1 =? v2). split; [reflexivity|].
  rewrite E1, E2, Z.eqb_eq. split; split.
  - intros ->. now apply (ipv4_to_value_inj ip1 ip2 v2).
  - intros ->. congruence.
  - now intros ->.
  - now intros [= ->].
Qed.

Lemma ips_same_subnet_boundaries_witness :
  canonical_ipv4 "10.0.0.1" = true /\ canonical_ipv4 "192.168.1.77" = true
  /\ ips_same_subnet "10.0.0.1" "192.168.1.77" "/0" = Ok true
  /\ exists b,
      ips_same_subnet "10.0.0.1" "192.168.1.77" "/32" = Ok b
      /\ (b = true <-> "10.0.0.1" = "192.168.1.77")
      /\ (b = true <-> ipv4_to_value "10.0.0.1" = ipv4_to_value "192.168.1.77").
Proof.
  split; [reflexivity|]. split; [reflexivity|].
  apply (ips_same_subnet_boundaries "10.0.0.1" "192.168.1.77" eq_refl eq_refl).
Defined.

(** C9. [ips_same_subnet] is symmetric in its two addresses: for well-formed
    dotted-decimal addresses and a prefix length in [0, 32], both orders
    return the same truth value. *)
Theorem ips_same_subnet_symmetric (ip1 ip2 slash : string) (n : Z) :
  decimal_ipv4 ip1 = true -> decimal_ipv4 ip2 = true ->
  0 <= n <= 32 -> slash_notation slash n ->
  exists b, ips_same_subnet ip1 ip2 slash = Ok b
            /\ ips_same_subnet ip2 ip1 slash = Ok b.
Proof.
  intros H1 H2 Hn Hs.
  destruct (ipv4_to_value_total ip1 H1) as (v1 & E1 & _).
  destruct (ipv4_to_value_total ip2 H2) as (v2 & E2 & _).
  rewrite (ips_same_subnet_value ip1 ip2 slash n v1 v2 Hs Hn E1 E2).
  rewrite (ips_same_subnet_value ip2 ip1 slash n v2 v1 Hs Hn E2 E1).
  eexists. split; [reflexivity|]. now rewrite Z.eqb_sym.
Qed.

Lemma ips_same_subnet_symmetric_witness :
  decimal_ipv4 "10.23.121.17" = true /\ decimal_ipv4 "10.23.121.225" = true
  /\ 0 <= 23 <= 32 /\ slash_notation "/23" 23
  /\ exists b, ips_same_subnet "10.23.121.17" "10.23.121.225" "/23" = Ok b
               /\ ips_same_subnet "10.23.121.225" "10.23.121.17" "/23" = Ok b.
Proof.
  assert (Hs : slash_notation "/23" 23) by (exists ""; reflexivity).
  split; [reflexivity|]. split; [reflexivity|]. split; [lia|]. split; [exact Hs|].
  apply (ips_same_subnet_symmetric "10.23.121.17" "10.23.121.225" "/23" 23);
    [reflexivity | reflexivity | lia | exact Hs].
Defined.

(** C10. For every value [v] in [0, 2^32-1], [value_to_ipv4 v] is a
    well-formed address: exactly four decimal parts joined by ".", each an
    integer in [0, 255] written without leading zeros. *)
Theorem value_to_ipv4_well_formed (v : Z) :
  0 <= v < 2 ^ 32 ->
  exists a b c d,
    value_to_ipv4 v = Ok (PStr (a ++ "." ++ b ++ "." ++ c ++ "." ++ d))
    /\ split "." (a ++ "." ++ b ++ "." ++ c ++ "." ++ d) = [a; b; c; d]
    /\ canonical_octet a = true /\ canonical_octet b = true
    /\ canonical_octet c = true /\ canonical_octet d = true
    /\ canonical_ipv4 (a ++ "." ++ b ++ "." ++ c ++ "." ++ d) = true.
Proof.
  intros Hv.
  pose proof (octet_range v 24 ltac:(lia)) as R3.
  pose proof (octet_range v 16 ltac:(lia)) as R2.
  pose proof (octet_range v 8 ltac:(lia)) as R1.
  pose proof (octet_range v 0 ltac:(lia)) as R0.
  exists (str_int (octet v 24)), (str_int (octet v 16)),
    (str_int (octet v 8)), (str_int (octet v 0)).
  assert (Hs : split "." (str_int (octet v 24) ++ "." ++ str_int (octet v 16) ++ "."
                          ++ str_int (octet v 8) ++ "." ++ str_int (octet v 0))
               = [str_int (octet v 24); str_int (octet v 16);
                  str_int (octet v 8); str_int (octet v 0)]).
  { apply split_dotted; apply str_int_digits; lia. }
  split; [apply value_to_ipv4_octets|]. split; [exact Hs|].
  unfold canonical_ipv4. rewrite Hs.
  rewrite (str_int_canonical _ R3), (str_int_canonical _ R2),
    (str_int_canonical _ R1), (str_int_canonical _ R0).
  repeat split.
Qed.

Lemma value_to_ipv4_well_formed_witness :
  0 <= 3232235777 < 2 ^ 32
  /\ exists a b c d,
      value_to_ipv4 3232235777 = Ok (PStr (a ++ "." ++ b ++ "." ++ c ++ "." ++ d))
      /\ split "." (a ++ "." ++ b ++ "." ++ c ++ "." ++ d) = [a; b; c; d]
      /\ canonical_octet a = true /\ canonical_octet b = true
      /\ canonical_octet c = true /\ canonical_octet d = true
      /\ canonical_ipv4 (a ++ "." ++ b ++ "." ++ c ++ "." ++ d) = true.
Proof.
  split; [lia|]. apply (value_to_ipv4_well_formed 3232235777). lia.
Defined.

Section ReportFacts.

(** Comparing keys can only raise [TypeError]. *)
Lemma insert_sorted_raise x l e :
  insert_sorted key_lt x l = Raise e -> e = TypeError.
Proof.
  induction l as [|y l IH]; cbn [insert_sorted]; [discriminate|].
  destruct y as [y|], x as [x|]; cbn [key_lt bind]; try congruence.
  destruct (String.ltb y x); [|discriminate].
  destruct (insert_sorted key_lt (Some x) l); cbn [bind]; [discriminate|].
  intros [= <-]. now apply IH.
Qed.

Lemma sorted_raise l e : sorted key_lt l = Raise e -> e = TypeError.
Proof.
  induction l as [|x l IH]; cbn [sorted]; [discriminate|].
  destruct (sorted key_lt l) as [r|e']; cbn [bind].
  - apply insert_sorted_raise.
  - intros [= <-]. now apply IH.
Qed.

Lemma insert_sorted_nonempty {A : Type} (lt : A -> A -> result bool) x l r :
  insert_sorted lt x l = Ok r -> r <> [].
Proof.
  destruct l as [|y l]; cbn [insert_sorted]; [intros [= <-]; discriminate|].
  destruct (lt y x) as [[|]|]; cbn [bind]; try discriminate.
  - destruct (insert_sorted lt x l); cbn [bind]; [|discriminate].
    intros [= <-]. discriminate.
  - intros [= <-]. discriminate.
Qed.

(** A key list of two or more entries that contains [None] cannot be
    sorted: some comparison involves [None]. *)
Lemma sorted_none l :
  In None l -> (2 <= List.length l)%nat -> sorted key_lt l = Raise TypeError.
Proof.
  induction l as [|x l IH]; [contradiction|].
  intros Hin Hlen. cbn [sorted].
  destruct (sorted key_lt l) as [r|e] eqn:E; cbn [bind].
  - destruct l as [|y l']; [cbn in Hlen; lia|].
    assert (Hr : r <> []).
    { cbn [sorted] in E. destruct (sorted key_lt l'); cbn [bind] in E;
        [|discriminate]. now apply insert_sorted_nonempty in E. }
    destruct r as [|z r]; [congruence|].
    destruct x as [x|].
    + destruct Hin as [Hx|Hin]; [discriminate|].
      destruct l' as [|y' l''].
      * destruct Hin as [->|[]]. cbn in E. injection E as <- <-. reflexivity.
      * assert (Hl : (2 <= List.length (y :: y' :: l''))%nat) by (cbn; lia).
        discriminate (IH Hin Hl).
    + cbn [insert_sorted]. destruct z; reflexivity.
  - f_equal. now apply (sorted_raise l).
Qed.

(** Whenever some address has no router, [print_ip_routers] cannot run to
    its end: either the keys of the host map cannot be sorted, or the only
    key is [None] and cannot be formatted. *)
Lemma print_ip_routers_none_raises routers src_dest_pairs all_ips m w :
  sorted str_lt (set_of (List.concat src_dest_pairs)) = Ok all_ips ->
  build_host_map routers all_ips = Ok m ->
  In None (map fst m) ->
  fst (print_ip_routers routers src_dest_pairs w) = Raise TypeError.
Proof.
  intros Hs Hb Hin. unfold print_ip_routers, bindIO, lift, print, print_end.
  rewrite Hs, Hb.
  destruct m as [|[k ips] [|e m']]; [contradiction| |].
  - destruct Hin as [Hk|[]]. cbn in Hk. subst k. reflexivity.
  - rewrite sorted_none; [reflexivity | exact Hin|]. cbn. lia.
Qed.

End ReportFacts.

(** C6: the report fails when an address has no router.  With one router
    and the pair ("1.2.3.5", "1.2.5.6") the second address is unmatched:
    after the heading is printed the keys of the host map, a router address
    and [None], cannot be sorted and [TypeError] is raised.  With a pair of
    matched addresses the section is printed, addresses in ascending order. *)
Theorem print_ip_routers_unmatched_raises (w : world) :
  print_ip_routers [("1.2.3.1", [("netmask", "/24")])] [["1.2.3.5"; "1.2.5.6"]] w
  = (Raise TypeError,
     {| stdout := stdout w ++ "Routers and corresponding IPs:" ++ newline;
        stderr := stderr w; files := files w |})
  /\ build_host_map [("1.2.3.1", [("netmask", "/24")])] ["1.2.3.5"; "1.2.5.6"]
     = Ok [(Some "1.2.3.1", ["1.2.3.5"]); (None, ["1.2.5.6"])]
  /\ print_ip_routers [("1.2.3.1", [("netmask", "/24")])]
       [["1.2.3.9"; "1.2.3.5"]]
       {| stdout := ""; stderr := ""; files := files w |}
     = (Ok tt,
        {| stdout := "Routers and corresponding IPs:" ++ newline
                     ++ "         1.2.3.1: ['1.2.3.5', '1.2.3.9']" ++ newline;
           stderr := ""; files := files w |}).
Proof. repeat split; reflexivity. Qed.

(** C8. When the program is started without the input-file argument, [main]
    prints the usage line to the error stream and nothing to the output
    stream, and the process exits with status 1. *)
Theorem main_without_argument_exits_1 (argv : list string) (w : world) :
  (List.length argv <= 1)%nat ->
  main argv w
  = (Ok (Some 1),
     {| stdout := stdout w;
        stderr := stderr w ++ "usage: netfuncs.py infile.json" ++ newline;
        files := files w |})
  /\ exit_status argv w
     = (1,
        {| stdout := stdout w;
           stderr := stderr w ++ "usage: netfuncs.py infile.json" ++ newline;
           files := files w |}).
Proof.
  intros Hlen. destruct argv as [|prog [|arg rest]]; cbn in Hlen; try lia;
    split; reflexivity.
Qed.

Lemma main_without_argument_exits_1_witness :
  (List.length ["netfuncs.py"] <= 1)%nat
  /\ main ["netfuncs.py"] {| stdout := ""; stderr := ""; files := fun _ => Raise KeyError |}
     = (Ok (Some 1),
        {| stdout := "";
           stderr := "" ++ "usage: netfuncs.py infile.json" ++ newline;
           files := fun _ => Raise KeyError |})
  /\ exit_status ["netfuncs.py"] {| stdout := ""; stderr := ""; files := fun _ => Raise KeyError |}
     = (1,
        {| stdout := "";
           stderr := "" ++ "usage: netfuncs.py infile.json" ++ newline;
           files := fun _ => Raise KeyError |}).
Proof.
  split; [cbn; lia|].
  apply (main_without_argument_exits_1 ["netfuncs.py"]
           {| stdout := ""; stderr := ""; files := fun _ => Raise KeyError |}).
  cbn. lia.
Defined.

(** ** Further properties of the address functions *)

Section ConversionErrors.

(** [int] raises nothing but [ValueError]. *)
Lemma int_raise s e : int s = Raise e -> e = ValueError.
Proof.
  unfold int. destruct (strip s) as [|c rest]; [congruence|].
  destruct (if Ascii.eqb c "-" then (true, rest)
            else if Ascii.eqb c "+" then (false, rest)
            else (false, String c rest)) as [negative body].
  destruct (digits_of false body) as [ds|]; [|congruence].
  destruct (int_max_str_digits <? Z.of_nat (String.length ds)); [congruence|].
  destruct (NilEmpty.uint_of_string ds); congruence.
Qed.

Lemma lshift_ok a n : 0 <= n -> lshift a n = Ok (Z.shiftl a n).
Proof. intros Hn. unfold lshift. now destruct (Z.ltb_spec n 0); [lia|]. Qed.

Lemma lshift_negative a n : n < 0 -> lshift a n = Raise ValueError.
Proof. intros Hn. unfold lshift. now destruct (Z.ltb_spec n 0); [|lia]. Qed.

Lemma body_ok r num part :
  (exists st, body (r, num) part = Ok st)
  <-> (exists n, int part = Ok n) /\ 0 <= num.
Proof.
  unfold body. split.
  - intros [st H]. destruct (int part) as [n|e]; cbn [bind] in H; [|discriminate H].
    split; [eauto|]. destruct (Z.lt_ge_cases num 0) as [Hneg|Hge]; [|exact Hge].
    rewrite lshift_negative in H by exact Hneg. discriminate H.
  - intros [[n Hn] Hnum]. rewrite Hn. cbn [bind]. rewrite lshift_ok by exact Hnum.
    cbn [bind]. eauto.
Qed.

Lemma body_state r num part st :
  body (r, num) part = Ok st -> snd st = num - 8.
Proof.
  unfold body. destruct (int part) as [n|e]; cbn [bind]; [|discriminate].
  destruct (lshift n num); cbn [bind]; [|discriminate]. now intros [= <-].
Qed.

Lemma body_raise st part e : body st part = Raise e -> e = ValueError.
Proof.
  destruct st as [r num]. unfold body.
  destruct (int part) as [n|e'] eqn:E; cbn [bind].
  - unfold lshift. destruct (num <? 0); cbn [bind]; congruence.
  - intros [= <-]. now apply (int_raise part).
Qed.

Lemma loop_raise l st e : for_each l body st = Raise e -> e = ValueError.
Proof.
  revert st. induction l as [|part l IH]; intros st; cbn [for_each]; [discriminate|].
  destruct (body st part) as [st'|e'] eqn:E; cbn [bind].
  - apply IH.
  - intros [= <-]. now apply (body_raise st part).
Qed.

(** The loop succeeds exactly when every part is accepted by [int] and the
    shift count has not gone negative by the last part. *)
Lemma loop_ok l r num :
  (exists st, for_each l body (r, num) = Ok st)
  <-> Forall (fun p => exists n, int p = Ok n) l
      /\ (l = [] \/ 8 * (Z.of_nat (List.length l) - 1) <= num).
Proof.
  revert r num. induction l as [|part l IH]; intros r num; cbn [for_each].
  - split; [intros _; split; [constructor | now left] | eauto].
  - split.
    + intros [st H].
      destruct (body (r, num) part) as [[r' num']|e] eqn:E; cbn [bind] in H;
        [|discriminate H].
      pose proof (body_state _ _ _ _ E) as Hnum. cbn [snd] in Hnum. subst num'.
      destruct (proj1 (body_ok r num part) (ex_intro _ _ E)) as [Hint Hge].
      destruct (proj1 (IH r' (num - 8)) (ex_intro _ _ H)) as [Hall Hlen].
      split; [now constructor|]. right.
      destruct Hlen as [->|Hlen]; cbn [List.length] in *; lia.
    + intros [Hall [Hnil|Hlen]]; [discriminate Hnil|].
      inversion Hall as [|p l' Hint Hall' E1]; subst.
      cbn [List.length] in Hlen.
      destruct (proj2 (body_ok r num part)) as [[r' num'] E]; [split; [exact Hint | lia]|].
      pose proof (body_state _ _ _ _ E) as Hnum. cbn [snd] in Hnum. subst num'.
      rewrite E. cbn [bind]. apply IH. split; [exact Hall'|].
      destruct l; [now left | right; cbn [List.length] in *; lia].
Qed.

Lemma ipv4_to_value_outcome (s : string) :
  ((exists v, ipv4_to_value s = Ok v)
   <-> (List.length (split "." s) <= 4)%nat
       /\ Forall (fun p => exists n, int p = Ok n) (split "." s))
  /\ (forall e, ipv4_to_value s = Raise e -> e = ValueError).
Proof.
  unfold ipv4_to_value. fold body. split; [split|].
  - intros [v H].
    destruct (for_each (split "." s) body (0, 24)) as [st|e] eqn:E;
      cbn [bind] in H; [|discriminate H].
    destruct (proj1 (loop_ok _ 0 24) (ex_intro _ _ E)) as [Hall Hlen].
    split; [|exact Hall]. destruct Hlen as [->|Hlen]; cbn [List.length]; lia.
  - intros [Hlen Hall].
    destruct (proj2 (loop_ok (split "." s) 0 24)) as [st ->];
      [split; [exact Hall | right; lia]|].
    cbn [bind]. eauto.
  - intros e.
    destruct (for_each (split "." s) body (0, 24)) as [st|e'] eqn:E;
      cbn [bind]; [discriminate|].
    intros [= <-]. now apply (loop_raise _ _ _ E).
Qed.

(** [ipv4_to_value] returns a value exactly for a text of at most four
    parts (split at "."), each accepted by [int]; every other text raises
    [ValueError], and no other exception is ever raised. *)
Theorem ipv4_to_value_succeeds_iff (s : string) :
  ((exists v, ipv4_to_value s = Ok v)
   <-> (List.length (split "." s) <= 4)%nat
       /\ Forall (fun p => exists n, int p = Ok n) (split "." s))
  /\ (forall e, ipv4_to_value s = Raise e -> e = ValueError).
Proof. intros. eapply ipv4_to_value_outcome; eassumption. Qed.

Lemma ipv4_to_value_succeeds_iff_witness :
  (List.length (split "." "1.2.3") <= 4)%nat
  /\ Forall (fun p => exists n, int p = Ok n) (split "." "1.2.3")
  /\ (exists v, ipv4_to_value "1.2.3" = Ok v)
  /\ ipv4_to_value "1.2.3.4.5" = Raise ValueError.
Proof.
  assert (H : (List.length (split "." "1.2.3") <= 4)%nat
              /\ Forall (fun p => exists n, int p = Ok n) (split "." "1.2.3")).
  { split; [cbn; lia|]. repeat constructor; eexists; reflexivity. }
  split; [exact (proj1 H)|]. split; [exact (proj2 H)|].
  split; [exact (proj2 (proj1 (ipv4_to_value_succeeds_iff "1.2.3")) H)|].
  reflexivity.
Defined.

End ConversionErrors.

Section ShortAndWideInputs.

Lemma ipv4_to_value_list s l :
  split "." s = l ->
  ipv4_to_value s = (st <- for_each l body (0, 24) ;; Ok (fst st)).
Proof. intros <-. reflexivity. Qed.

(** [ipv4_to_value] does not insist on four parts: a text of one, two or
    three decimal octets is accepted, and the parts fill the value from the
    most significant octet down, the missing octets being zero. *)
Theorem ipv4_to_value_short_address (a b c : string) :
  decimal_octet a = true -> decimal_octet b = true -> decimal_octet c = true ->
  exists va vb vc,
    int a = Ok va /\ int b = Ok vb /\ int c = Ok vc
    /\ ipv4_to_value a = Ok (Z.shiftl va 24)
    /\ ipv4_to_value (a ++ "." ++ b) = Ok (Z.shiftl va 24 + Z.shiftl vb 16)
    /\ ipv4_to_value (a ++ "." ++ b ++ "." ++ c)
       = Ok (Z.shiftl va 24 + Z.shiftl vb 16 + Z.shiftl vc 8).
Proof.
  intros Ha Hb Hc.
  destruct (decimal_octet_spec a Ha) as (va & Ia & Ra & Da & _).
  destruct (decimal_octet_spec b Hb) as (vb & Ib & Rb & Db & _).
  destruct (decimal_octet_spec c Hc) as (vc & Ic & Rc & Dc & _).
  exists va, vb, vc. repeat split; try assumption.
  - rewrite (ipv4_to_value_list a [a])
      by (apply split_no_sep; now apply all_digits_no_dot).
    assert (E : for_each [a] body (0, 24) = Ok (Z.lor (Z.shiftl va 24) 0, 16)).
    { cbn [for_each]. unfold body. rewrite Ia. reflexivity. }
    rewrite E. cbn [bind fst]. now rewrite Z.lor_0_r.
  - rewrite (ipv4_to_value_list _ [a; b]).
    + assert (E : for_each [a; b] body (0, 24)
                  = Ok (Z.lor (Z.shiftl vb 16) (Z.lor (Z.shiftl va 24) 0), 8)).
      { cbn [for_each]. unfold body. rewrite Ia. cbn. rewrite Ib. reflexivity. }
      rewrite E. cbn [bind fst].
      pose proof (lor_pack va vb 0 0 Ra Rb ltac:(lia) ltac:(lia)) as H.
      rewrite !Z.shiftl_0_l, !Z.lor_0_l in H. rewrite H. unfold pack.
      rewrite !Z.shiftl_mul_pow2 by lia. f_equal. lia.
    + cbn [append]. rewrite split_app by now apply all_digits_no_dot.
      now rewrite split_no_sep by now apply all_digits_no_dot.
  - rewrite (ipv4_to_value_list _ [a; b; c]).
    + assert (E : for_each [a; b; c] body (0, 24)
                  = Ok (Z.lor (Z.shiftl vc 8)
                          (Z.lor (Z.shiftl vb 16) (Z.lor (Z.shiftl va 24) 0)), 0)).
      { cbn [for_each]. unfold body. rewrite Ia. cbn. rewrite Ib. cbn.
        rewrite Ic. reflexivity. }
      rewrite E. cbn [bind fst].
      pose proof (lor_pack va vb vc 0 Ra Rb Rc ltac:(lia)) as H.
      rewrite !Z.shiftl_0_l, !Z.lor_0_l in H. rewrite H. unfold pack.
      rewrite !Z.shiftl_mul_pow2 by lia. f_equal. lia.
    + cbn [append]. rewrite !split_app by now apply all_digits_no_dot.
      now rewrite split_no_sep by now apply all_digits_no_dot.
Qed.

Lemma ipv4_to_value_short_address_witness :
  decimal_octet "10" = true /\ decimal_octet "1" = true
  /\ decimal_octet "200" = true
  /\ exists va vb vc,
      int "10" = Ok va /\ int "1" = Ok vb /\ int "200" = Ok vc
      /\ ipv4_to_value "10" = Ok (Z.shiftl va 24)
      /\ ipv4_to_value ("10" ++ "." ++ "1") = Ok (Z.shiftl va 24 + Z.shiftl vb 16)
      /\ ipv4_to_value ("10" ++ "." ++ "1" ++ "." ++ "200")
         = Ok (Z.shiftl va 24 + Z.shiftl vb 16 + Z.shiftl vc 8).
Proof.
  repeat (split; [reflexivity|]).
  apply (ipv4_to_value_short_address "10" "1" "200" eq_refl eq_refl eq_refl).
Defined.

Lemma octet_wraps v i :
  0 <= i <= 24 -> octet (v mod 2 ^ 32) i = octet v i.
Proof.
  intros Hi. unfold octet. apply Z.bits_inj'. intros k Hk.
  rewrite !Z.land_spec, !Z.shiftr_spec by lia.
  change 255 with (Z.ones 8). rewrite Z.testbit_ones by lia.
  destruct (Z.leb_spec 0 k), (Z.ltb_spec k 8); cbn [andb];
    rewrite ?andb_false_r; try reflexivity; try lia.
  rewrite !andb_true_r. apply Z.mod_pow2_bits_low. lia.
Qed.

(** [value_to_ipv4] works for every integer, negative or wider than 32 bits:
    only the low 32 bits show.  The result is always a canonical address,
    the same as for [v mod 2^32], and reading it back gives [v mod 2^32]. *)
Theorem value_to_ipv4_any_integer (v : Z) :
  exists s,
    value_to_ipv4 v = Ok (PStr s)
    /\ value_to_ipv4 (v mod 2 ^ 32) = Ok (PStr s)
    /\ canonical_ipv4 s = true
    /\ ipv4_to_value s = Ok (v mod 2 ^ 32).
Proof.
  assert (Hr : 0 <= v mod 2 ^ 32 < 2 ^ 32) by (apply Z.mod_pos_bound; lia).
  destruct (ipv4_to_value_of_value _ Hr) as (s & Hs & Hc & Hback).
  exists s. repeat split; try assumption.
  rewrite <- Hs, !value_to_ipv4_octets.
  now rewrite !octet_wraps by lia.
Qed.

End ShortAndWideInputs.

Section BitSetting.

(** [set_bit] sets the bit at position [digit] and changes no other bit;
    setting it again changes nothing. *)
Theorem set_bit_sets_one_bit (num digit : Z) :
  0 <= digit ->
  exists r,
    set_bit num digit = Ok r
    /\ (forall i, 0 <= i -> Z.testbit r i = Z.testbit num i || (i =? digit))
    /\ set_bit r digit = Ok r.
Proof.
  intros Hd. rewrite set_bit_ok by exact Hd. eexists. split; [reflexivity|].
  split.
  - intros i Hi. rewrite Z.lor_spec, Z.pow2_bits_eqb by exact Hd.
    now rewrite (Z.eqb_sym digit i).
  - rewrite set_bit_ok by exact Hd. f_equal.
    now rewrite <- Z.lor_assoc, Z.lor_diag.
Qed.

Lemma set_bit_sets_one_bit_witness :
  0 <= 9
  /\ exists r,
      set_bit 5 9 = Ok r
      /\ (forall i, 0 <= i -> Z.testbit r i = Z.testbit 5 i || (i =? 9))
      /\ set_bit r 9 = Ok r.
Proof. split; [lia|]. apply (set_bit_sets_one_bit 5 9). lia. Defined.

Lemma set_bit_raise num digit e : set_bit num digit = Raise e -> e = ValueError.
Proof.
  unfold set_bit, lshift. destruct (digit <? 0); cbn [bind]; congruence.
Qed.

Lemma range_unfold b e :
  range b e = map (fun k => b + 1 * Z.of_nat k) (seq 0 (Z.to_nat (e - b))).
Proof.
  unfold range, range3. do 2 f_equal.
  rewrite Z.div_1_r. f_equal. lia.
Qed.

Lemma set_bits_range_bits (num begin_ end_ : Z) :
  0 <= begin_ ->
  exists r,
    set_bits num begin_ end_ = Ok r
    /\ (forall i, 0 <= i ->
          Z.testbit r i = Z.testbit num i || ((begin_ <=? i) && (i <? end_)))
    /\ (end_ <= begin_ -> r = num).
Proof.
  intros Hb. unfold set_bits. rewrite range_unfold.
  destruct (set_bit_loop begin_ (Z.to_nat (end_ - begin_)) 0 num Hb)
    as (r & -> & Hr).
  exists r. split; [reflexivity|].
  assert (Hbits : forall i, 0 <= i ->
            Z.testbit r i = Z.testbit num i || ((begin_ <=? i) && (i <? end_))).
  { intros i Hi. rewrite (Hr i Hi). f_equal.
    destruct (Z.leb_spec (begin_ + Z.of_nat 0) i), (Z.leb_spec begin_ i),
      (Z.ltb_spec i (begin_ + Z.of_nat 0 + Z.of_nat (Z.to_nat (end_ - begin_)))),
      (Z.ltb_spec i end_); cbn; try reflexivity; lia. }
  split; [exact Hbits|].
  intros Hempty. apply Z.bits_inj'. intros i Hi. rewrite (Hbits i Hi).
  destruct (Z.leb_spec begin_ i), (Z.ltb_spec i end_); cbn;
    rewrite ?orb_false_r; try reflexivity; lia.
Qed.

(** [set_bits] with a non-negative [begin] sets exactly the bits at positions
    [begin <= i < end] and keeps the others; when [end <= begin] the number
    comes back unchanged. *)
Theorem set_bits_sets_range (num begin_ end_ : Z) :
  0 <= begin_ ->
  exists r,
    set_bits num begin_ end_ = Ok r
    /\ (forall i, 0 <= i ->
          Z.testbit r i = Z.testbit num i || ((begin_ <=? i) && (i <? end_)))
    /\ (end_ <= begin_ -> r = num).
Proof. intros. eapply set_bits_range_bits; eassumption. Qed.

Lemma set_bits_sets_range_witness :
  0 <= 4
  /\ exists r,
      set_bits 1 4 8 = Ok r
      /\ (forall i, 0 <= i ->
            Z.testbit r i = Z.testbit 1 i || ((4 <=? i) && (i <? 8)))
      /\ (8 <= 4 -> r = 1).
Proof. split; [lia|]. apply (set_bits_sets_range 1 4 8). lia. Defined.

Lemma set_bits_negative (num begin_ end_ : Z) :
  begin_ < 0 -> begin_ < end_ -> set_bits num begin_ end_ = Raise ValueError.
Proof.
  intros Hneg Hlt. unfold set_bits. rewrite range_unfold.
  destruct (Z.to_nat (end_ - begin_)) as [|count] eqn:E; [lia|].
  cbn [seq map for_each]. unfold set_bit at 1.
  rewrite lshift_negative by lia. reflexivity.
Qed.

(** [set_bits] with a negative [begin] below [end] raises [ValueError]: the
    first bit position is a negative shift count. *)
Theorem set_bits_negative_begin (num begin_ end_ : Z) :
  begin_ < 0 -> begin_ < end_ -> set_bits num begin_ end_ = Raise ValueError.
Proof. intros. eapply set_bits_negative; eassumption. Qed.

Lemma set_bits_negative_begin_witness :
  -1 < 0 /\ -1 < 32 /\ set_bits 0 (-1) 32 = Raise ValueError.
Proof.
  split; [lia|]. split; [lia|]. apply (set_bits_negative_begin 0 (-1) 32); lia.
Defined.

Lemma set_bits_raise num begin_ end_ e :
  set_bits num begin_ end_ = Raise e -> e = ValueError.
Proof.
  unfold set_bits. generalize (range begin_ end_). intros l. revert num.
  induction l as [|d l IH]; intros num; cbn [for_each]; [discriminate|].
  destruct (set_bit num d) as [num'|e'] eqn:E; cbn [bind].
  - apply IH.
  - intros [= <-]. now apply (set_bit_raise num d).
Qed.

End BitSetting.

Section MaskEdges.

Lemma digits_of_start c s :
  all_digits (String c s) = true -> digits_of false (String c s) = Some (String c s).
Proof.
  intros H. simpl in H. apply andb_prop in H as [Hc Hs].
  destruct (is_digit_not_mark _ Hc) as (_ & _ & Hu & _).
  cbn [digits_of]. now rewrite Hu, Hc, (all_digits_digits_of _ Hs).
Qed.

Lemma rstrip_sign c s :
  all_digits (String c s) = true ->
  rstrip (String "-" (String c s)) = String "-" (String c s).
Proof.
  intros Hd.
  change (rstrip (String "-" (String c s)))
    with (match rstrip (String c s) with
          | EmptyString => if is_space "-" then EmptyString else String "-" EmptyString
          | String a t => String "-" (String a t)
          end).
  now rewrite (all_digits_rstrip _ Hd).
Qed.

(** On a minus sign followed by digits [int] only checks the number of
    digits. *)
Lemma int_sign_unfold c s :
  all_digits (String c s) = true ->
  int (String "-" (String c s))
  = if int_max_str_digits <? Z.of_nat (String.length (String c s))
    then Raise ValueError
    else match NilEmpty.uint_of_string (String c s) with
         | Some u => Ok (- Z.of_uint u)
         | None => Raise ValueError
         end.
Proof.
  intros Hd. unfold int, strip.
  change (lstrip (String "-" (String c s))) with (String "-" (String c s)).
  rewrite (rstrip_sign c s Hd).
  change (Ascii.eqb "-" "-") with true. cbv iota beta.
  rewrite (digits_of_start c s Hd).
  destruct (int_max_str_digits <? Z.of_nat (String.length (String c s)));
    [reflexivity|].
  now destruct (NilEmpty.uint_of_string (String c s)).
Qed.

Lemma str_int_negative p :
  exists c s,
    str_int (Z.neg p) = String "-" (String c s)
    /\ str_int (Z.pos p) = String c s
    /\ all_digits (String c s) = true
    /\ NilEmpty.uint_of_string (String c s) = Some (Pos.to_uint p).
Proof.
  pose proof (DecimalPos.Unsigned.to_uint_nonnil p) as Hn.
  destruct (string_of_uint_cons _ Hn) as (c & s & E).
  exists c, s. unfold str_int. cbn [Z.to_int NilZero.string_of_int].
  rewrite (string_of_uint_nonnil _ Hn), E. repeat split.
  - rewrite <- E. apply string_of_uint_digits.
  - rewrite <- E. apply NilEmpty.usu.
Qed.

(** [int] reads back the text [str] prints for a negative number, too,
    within the limit on the digits. *)
Lemma int_str_int_negative z :
  z < 0 -> Z.of_nat (String.length (str_int (- z))) <= int_max_str_digits ->
  int (str_int z) = Ok z.
Proof.
  intros Hz. destruct z as [|p|p]; try lia. cbn [Z.opp].
  destruct (str_int_negative p) as (c & s & -> & -> & Hd & Hu). intros Hlen.
  rewrite (int_sign_unfold c s Hd), Hu.
  destruct (Z.ltb_spec int_max_str_digits
              (Z.of_nat (String.length (String c s)))); [lia|].
  pose proof (DecimalZ.of_to (Z.neg p)) as Hof. cbn [Z.to_int Z.of_int] in Hof.
  now rewrite Hof.
Qed.

(** Whenever [int] accepts the decimal text of a number, it returns that
    number. *)
Lemma int_str_int_result z k : int (str_int z) = Ok k -> k = z.
Proof.
  destruct (Z.lt_ge_cases z 0) as [Hneg|Hpos].
  - destruct z as [|p|p]; try lia.
    destruct (str_int_negative p) as (c & s & E & Epos & Hd & Hu).
    intros H. pose proof H as H'. rewrite E, (int_sign_unfold c s Hd) in H'.
    destruct (Z.ltb_spec int_max_str_digits
                (Z.of_nat (String.length (String c s)))); [discriminate H'|].
    rewrite int_str_int_negative in H; [congruence | lia|].
    cbn [Z.opp]. now rewrite Epos.
  - destruct (str_int_digits z ltac:(lia)) as [Hd Hne].
    intros H. destruct (str_int z) as [|c s] eqn:E; [congruence|].
    destruct (int_all_digits_inv c s k Hd H) as (u & _ & _ & Hlen).
    rewrite <- E in H, Hlen. rewrite int_str_int in H; [congruence | lia | exact Hlen].
Qed.

Lemma str_int_no_slash z : contains "/" (str_int z) = false.
Proof.
  destruct (Z.lt_ge_cases z 0) as [Hneg|Hpos].
  - destruct z as [|p|p]; try lia. unfold str_int.
    cbn [Z.to_int NilZero.string_of_int contains].
    rewrite (string_of_uint_nonnil _ (DecimalPos.Unsigned.to_uint_nonnil p)).
    rewrite (all_digits_no_slash _ (string_of_uint_digits _)). reflexivity.
  - apply all_digits_no_slash. now apply str_int_digits.
Qed.

Lemma mask_text_prefix pre n :
  get_subnet_mask_value (pre ++ "/" ++ str_int n)
  = (k <- int (str_int n) ;; set_bits 0 (32 - k) 32).
Proof.
  unfold get_subnet_mask_value.
  change (pre ++ "/" ++ str_int n) with (pre ++ String "/" (str_int n)).
  now rewrite split_index_last by apply str_int_no_slash.
Qed.

(** A prefix length above 32 makes [get_subnet_mask_value] raise
    [ValueError], whatever precedes the slash. *)
Theorem get_subnet_mask_value_prefix_too_long (pre : string) (n : Z) :
  32 < n -> get_subnet_mask_value (pre ++ "/" ++ str_int n) = Raise ValueError.
Proof.
  intros Hn. rewrite mask_text_prefix.
  destruct (int (str_int n)) as [k|e] eqn:E; cbn [bind].
  - rewrite (int_str_int_result n k E). apply set_bits_negative; lia.
  - f_equal. now apply (int_raise (str_int n)).
Qed.

Lemma get_subnet_mask_value_prefix_too_long_witness :
  32 < 33
  /\ get_subnet_mask_value ("10.0.0.0" ++ "/" ++ str_int 33) = Raise ValueError.
Proof.
  split; [lia|]. apply (get_subnet_mask_value_prefix_too_long "10.0.0.0" 33). lia.
Defined.

(** A negative prefix length is not rejected: as long as its text stays
    within the digits [int] accepts (more than [- 10 ^ 4300]), the range of
    bits to set is empty and the mask is 0. *)
Theorem get_subnet_mask_value_negative_prefix (pre : string) (n : Z) :
  - 10 ^ int_max_str_digits < n < 0 ->
  get_subnet_mask_value (pre ++ "/" ++ str_int n) = Ok 0.
Proof.
  intros Hn. rewrite mask_text_prefix.
  rewrite int_str_int_negative; [|lia|].
  - cbn [bind].
    destruct (set_bits_range_bits 0 (32 - n) 32 ltac:(lia)) as (r & -> & _ & Hr).
    f_equal. apply Hr. lia.
  - apply str_int_length; [|unfold int_max_str_digits; lia].
    revert Hn. generalize (10 ^ int_max_str_digits). intros B Hn. lia.
Qed.

Lemma get_subnet_mask_value_negative_prefix_witness :
  - 10 ^ int_max_str_digits < -3 < 0
  /\ get_subnet_mask_value ("" ++ "/" ++ str_int (-3)) = Ok 0.
Proof.
  assert (H : - 10 ^ int_max_str_digits < -3 < 0)
    by (split; vm_compute; reflexivity).
  split; [exact H|].
  apply (get_subnet_mask_value_negative_prefix "" (-3) H).
Defined.

(** The slash itself is optional: a text without any "/" is read as the
    prefix length, with the same result as the slash form. *)
Theorem get_subnet_mask_value_without_slash (n : Z) :
  get_subnet_mask_value (str_int n) = get_subnet_mask_value ("/" ++ str_int n).
Proof.
  transitivity (k <- int (str_int n) ;; set_bits 0 (32 - k) 32);
    [|symmetry; exact (mask_text_prefix "" n)].
  unfold get_subnet_mask_value.
  now rewrite split_no_sep by apply str_int_no_slash.
Qed.

Lemma get_subnet_mask_value_raise (slash : string) (e : exn) :
  get_subnet_mask_value slash = Raise e -> e = ValueError.
Proof.
  unfold get_subnet_mask_value.
  destruct (exists_last (split_nonempty "/" slash)) as (front & t & ->).
  rewrite index_last. cbn [bind].
  destruct (int t) as [n|e'] eqn:E; cbn [bind].
  - apply set_bits_raise.
  - intros [= <-]. now apply (int_raise t).
Qed.

(** [get_subnet_mask_value] never raises anything but [ValueError]; in
    particular taking the last part of the split text cannot fail. *)
Theorem get_subnet_mask_value_raises_value_error (slash : string) (e : exn) :
  get_subnet_mask_value slash = Raise e -> e = ValueError.
Proof. intros. eapply get_subnet_mask_value_raise; eassumption. Qed.

Lemma get_subnet_mask_value_raises_value_error_witness :
  get_subnet_mask_value "10.0.0.0/" = Raise ValueError /\ ValueError = ValueError.
Proof.
  split; [reflexivity|].
  apply (get_subnet_mask_value_raises_value_error "10.0.0.0/" ValueError).
  reflexivity.
Defined.

End MaskEdges.

Section SubnetRelation.

Lemma ips_same_subnet_inv ip1 ip2 slash b :
  ips_same_subnet ip1 ip2 slash = Ok b ->
  exists mask v1 v2,
    get_subnet_mask_value slash = Ok mask
    /\ ipv4_to_value ip1 = Ok v1 /\ ipv4_to_value ip2 = Ok v2
    /\ b = (Z.land v1 mask =? Z.land v2 mask).
Proof.
  unfold ips_same_subnet.
  destruct (get_subnet_mask_value slash) as [mask|]; cbn [bind]; [|discriminate].
  destruct (ipv4_to_value ip1) as [v1|]; cbn [bind]; [|discriminate].
  destruct (ipv4_to_value ip2) as [v2|]; cbn [bind]; [|discriminate].
  intros [= <-]. now exists mask, v1, v2.
Qed.

(** For a fixed slash text, being on the same subnet is reflexive and
    transitive.  Reflexive: whenever the address is read by
    [ipv4_to_value] and the slash text by [get_subnet_mask_value], the
    address is on its own subnet.  Transitive: two addresses on the subnet
    of a third are on the same subnet. *)
Theorem ips_same_subnet_reflexive_transitive (ip1 ip2 ip3 slash : string) :
  ((exists v, ipv4_to_value ip1 = Ok v) ->
   (exists mask, get_subnet_mask_value slash = Ok mask) ->
   ips_same_subnet ip1 ip1 slash = Ok true)
  /\ (ips_same_subnet ip1 ip2 slash = Ok true ->
      ips_same_subnet ip2 ip3 slash = Ok true ->
      ips_same_subnet ip1 ip3 slash = Ok true).
Proof.
  split.
  - intros [v Hv] [mask Hm]. unfold ips_same_subnet.
    rewrite Hm, Hv. cbn [bind]. now rewrite Z.eqb_refl.
  - intros H12 H23.
    destruct (ips_same_subnet_inv _ _ _ _ H12) as (m & v1 & v2 & Hm & E1 & E2 & Hb).
    destruct (ips_same_subnet_inv _ _ _ _ H23)
      as (m' & v2' & v3 & Hm' & E2' & E3 & Hb').
    assert (m' = m) by congruence. assert (v2' = v2) by congruence. subst m' v2'.
    symmetry in Hb, Hb'. apply Z.eqb_eq in Hb, Hb'.
    unfold ips_same_subnet. rewrite Hm, E1, E3. cbn [bind].
    f_equal. apply Z.eqb_eq. congruence.
Qed.

Lemma ips_same_subnet_reflexive_transitive_witness :
  (exists v, ipv4_to_value "10.1.2.3" = Ok v)
  /\ (exists mask, get_subnet_mask_value "/24" = Ok mask)
  /\ ips_same_subnet "10.1.2.3" "10.1.2.3" "/24" = Ok true
  /\ ips_same_subnet "10.1.2.3" "10.1.2.77" "/24" = Ok true
  /\ ips_same_subnet "10.1.2.77" "10.1.2.200" "/24" = Ok true
  /\ ips_same_subnet "10.1.2.3" "10.1.2.200" "/24" = Ok true.
Proof.
  assert (Hv : exists v, ipv4_to_value "10.1.2.3" = Ok v)
    by (eexists; reflexivity).
  assert (Hm : exists mask, get_subnet_mask_value "/24" = Ok mask)
    by (eexists; reflexivity).
  split; [exact Hv|]. split; [exact Hm|].
  split; [exact (proj1 (ips_same_subnet_reflexive_transitive
                          "10.1.2.3" "10.1.2.77" "10.1.2.200" "/24") Hv Hm)|].
  split; [reflexivity|]. split; [reflexivity|].
  exact (proj2 (ips_same_subnet_reflexive_transitive
                  "10.1.2.3" "10.1.2.77" "10.1.2.200" "/24") eq_refl eq_refl).
Defined.

Lemma ips_same_subnet_raise (ip1 ip2 slash : string) (e : exn) :
  ips_same_subnet ip1 ip2 slash = Raise e -> e = ValueError.
Proof.
  unfold ips_same_subnet.
  destruct (get_subnet_mask_value slash) as [mask|e0] eqn:Em; cbn [bind].
  - destruct (ipv4_to_value ip1) as [v1|e1] eqn:E1; cbn [bind].
    + destruct (ipv4_to_value ip2) as [v2|e2] eqn:E2; cbn [bind]; [discriminate|].
      intros [= <-]. now apply (proj2 (ipv4_to_value_outcome ip2)).
    + intros [= <-]. now apply (proj2 (ipv4_to_value_outcome ip1)).
  - intros [= <-]. now apply (get_subnet_mask_value_raise slash).
Qed.

(** [ips_same_subnet] never raises anything but [ValueError]. *)
Theorem ips_same_subnet_raises_value_error (ip1 ip2 slash : string) (e : exn) :
  ips_same_subnet ip1 ip2 slash = Raise e -> e = ValueError.
Proof. intros. eapply ips_same_subnet_raise; eassumption. Qed.

Lemma ips_same_subnet_raises_value_error_witness :
  ips_same_subnet "10.1.2" "10.1.2.3.4" "/24" = Raise ValueError
  /\ ValueError = ValueError.
Proof.
  split; [reflexivity|].
  apply (ips_same_subnet_raises_value_error "10.1.2" "10.1.2.3.4" "/24" ValueError).
  reflexivity.
Defined.

Lemma mask_of_nested m n :
  0 <= m <= n -> n <= 32 -> Z.land (mask_of n) (mask_of m) = mask_of m.
Proof.
  intros Hm Hn. apply Z.bits_inj'. intros i Hi.
  rewrite Z.land_spec, !mask_of_bits by lia.
  destruct (Z.leb_spec (32 - n) i), (Z.leb_spec (32 - m) i), (Z.ltb_spec i 32);
    cbn; try reflexivity; lia.
Qed.

(** A shorter prefix gives a coarser subnet: two addresses on the same
    subnet under prefix length [n] are on the same subnet under every
    prefix length [m <= n]. *)
Theorem ips_same_subnet_shorter_prefix (ip1 ip2 slash_n slash_m : string) (n m : Z) :
  decimal_ipv4 ip1 = true -> decimal_ipv4 ip2 = true ->
  0 <= m <= n -> n <= 32 ->
  slash_notation slash_n n -> slash_notation slash_m m ->
  ips_same_subnet ip1 ip2 slash_n = Ok true ->
  ips_same_subnet ip1 ip2 slash_m = Ok true.
Proof.
  intros H1 H2 Hm Hn Sn Sm.
  destruct (ipv4_to_value_total ip1 H1) as (v1 & E1 & _).
  destruct (ipv4_to_value_total ip2 H2) as (v2 & E2 & _).
  rewrite (ips_same_subnet_value ip1 ip2 slash_n n v1 v2 Sn ltac:(lia) E1 E2).
  rewrite (ips_same_subnet_value ip1 ip2 slash_m m v1 v2 Sm ltac:(lia) E1 E2).
  intros [= H]. apply Z.eqb_eq in H. f_equal. apply Z.eqb_eq.
  rewrite <- (mask_of_nested m n Hm Hn), !Z.land_assoc. now rewrite H.
Qed.

Lemma ips_same_subnet_shorter_prefix_witness :
  decimal_ipv4 "10.23.121.17" = true /\ decimal_ipv4 "10.23.121.225" = true
  /\ 0 <= 8 <= 23 /\ 23 <= 32
  /\ slash_notation "/23" 23 /\ slash_notation "/8" 8
  /\ ips_same_subnet "10.23.121.17" "10.23.121.225" "/23" = Ok true
  /\ ips_same_subnet "10.23.121.17" "10.23.121.225" "/8" = Ok true.
Proof.
  assert (S23 : slash_notation "/23" 23) by (exists ""; reflexivity).
  assert (S8 : slash_notation "/8" 8) by (exists ""; reflexivity).
  split; [reflexivity|]. split; [reflexivity|]. split; [lia|]. split; [lia|].
  split; [exact S23|]. split; [exact S8|]. split; [reflexivity|].
  apply (ips_same_subnet_shorter_prefix "10.23.121.17" "10.23.121.225"
           "/23" "/8" 23 8); [reflexivity | reflexivity | lia | lia
                             | exact S23 | exact S8 | reflexivity].
Defined.

Lemma land_mask_of v n :
  0 <= v < 2 ^ 32 -> 0 <= n <= 32 ->
  Z.land v (mask_of n) = v / 2 ^ (32 - n) * 2 ^ (32 - n).
Proof.
  intros Hv Hn.
  rewrite <- Z.shiftr_div_pow2, <- Z.shiftl_mul_pow2 by lia.
  apply Z.bits_inj'. intros i Hi.
  rewrite Z.land_spec, mask_of_bits by lia.
  destruct (Z.leb_spec (32 - n) i) as [Hge|Hlt].
  - rewrite Z.shiftl_spec, Z.shiftr_spec by lia.
    replace (i - (32 - n) + (32 - n)) with i by lia.
    destruct (Z.ltb_spec i 32) as [Hin|Hout]; cbn [andb];
      [now rewrite andb_true_r|].
    rewrite andb_false_r. symmetry.
    rewrite <- (Z.mod_small v (2 ^ 32)) by lia.
    now rewrite Z.mod_pow2_bits_high by lia.
  - cbn [andb]. rewrite andb_false_r. now rewrite Z.shiftl_spec_low by lia.
Qed.

(** [get_network] with the mask of a prefix length clears the host bits:
    for a 32-bit value and prefix length [n], the network is the value
    rounded down to a multiple of [2^(32-n)]; it does not exceed the value,
    and taking the network again changes nothing. *)
Theorem get_network_clears_host_bits (v n : Z) (slash : string) :
  0 <= v < 2 ^ 32 -> 0 <= n <= 32 -> slash_notation slash n ->
  exists mask,
    get_subnet_mask_value slash = Ok mask
    /\ get_network v mask = v - v mod 2 ^ (32 - n)
    /\ 0 <= get_network v mask <= v
    /\ get_network (get_network v mask) mask = get_network v mask.
Proof.
  intros Hv Hn Hs. exists (mask_of n).
  split; [now apply get_subnet_mask_value_slash|].
  unfold get_network.
  assert (Hpos : 0 < 2 ^ (32 - n)) by (apply Z.pow_pos_nonneg; lia).
  pose proof (Z.div_mod v (2 ^ (32 - n)) ltac:(lia)) as Hdm.
  pose proof (Z.mod_pos_bound v (2 ^ (32 - n)) Hpos) as Hmod.
  assert (Hq : 0 <= v / 2 ^ (32 - n) * 2 ^ (32 - n)).
  { apply Z.mul_nonneg_nonneg; [apply Z.div_pos|]; lia. }
  rewrite <- Z.land_assoc, Z.land_diag, (land_mask_of v n Hv Hn).
  repeat split; lia.
Qed.

Lemma get_network_clears_host_bits_witness :
  0 <= 16909060 < 2 ^ 32 /\ 0 <= 24 <= 32 /\ slash_notation "/24" 24
  /\ exists mask,
      get_subnet_mask_value "/24" = Ok mask
      /\ get_network 16909060 mask = 16909060 - 16909060 mod 2 ^ (32 - 24)
      /\ 0 <= get_network 16909060 mask <= 16909060
      /\ get_network (get_network 16909060 mask) mask = get_network 16909060 mask.
Proof.
  assert (S24 : slash_notation "/24" 24) by (exists ""; reflexivity).
  split; [lia|]. split; [lia|]. split; [exact S24|].
  apply (get_network_clears_host_bits 16909060 24 "/24"); [lia | lia | exact S24].
Defined.

(** In arithmetic terms: two well-formed addresses are on the same subnet
    under prefix length [n] exactly when their values have the same
    quotient by [2^(32-n)]. *)
Theorem ips_same_subnet_iff_same_quotient (ip1 ip2 slash : string) (n : Z) :
  decimal_ipv4 ip1 = true -> decimal_ipv4 ip2 = true ->
  0 <= n <= 32 -> slash_notation slash n ->
  exists v1 v2,
    ipv4_to_value ip1 = Ok v1 /\ ipv4_to_value ip2 = Ok v2
    /\ ips_same_subnet ip1 ip2 slash
       = Ok (v1 / 2 ^ (32 - n) =? v2 / 2 ^ (32 - n)).
Proof.
  intros H1 H2 Hn Hs.
  destruct (ipv4_to_value_total ip1 H1) as (v1 & E1 & R1).
  destruct (ipv4_to_value_total ip2 H2) as (v2 & E2 & R2).
  exists v1, v2. split; [exact E1|]. split; [exact E2|].
  rewrite (ips_same_subnet_value ip1 ip2 slash n v1 v2 Hs Hn E1 E2).
  rewrite !land_mask_of by assumption. f_equal.
  assert (Hpos : 0 < 2 ^ (32 - n)) by (apply Z.pow_pos_nonneg; lia).
  destruct (Z.eqb_spec (v1 / 2 ^ (32 - n)) (v2 / 2 ^ (32 - n))) as [->|Hne].
  - apply Z.eqb_refl.
  - apply Z.eqb_neq. intros H. apply Hne.
    now apply Z.mul_cancel_r in H; [|lia].
Qed.

Lemma ips_same_subnet_iff_same_quotient_witness :
  decimal_ipv4 "192.168.7.9" = true /\ decimal_ipv4 "192.168.6.200" = true
  /\ 0 <= 23 <= 32 /\ slash_notation "/23" 23
  /\ exists v1 v2,
      ipv4_to_value "192.168.7.9" = Ok v1 /\ ipv4_to_value "192.168.6.200" = Ok v2
      /\ ips_same_subnet "192.168.7.9" "192.168.6.200" "/23"
         = Ok (v1 / 2 ^ (32 - 23) =? v2 / 2 ^ (32 - 23)).
Proof.
  assert (S23 : slash_notation "/23" 23) by (exists ""; reflexivity).
  split; [reflexivity|]. split; [reflexivity|]. split; [lia|]. split; [exact S23|].
  apply (ips_same_subnet_iff_same_quotient "192.168.7.9" "192.168.6.200" "/23" 23);
    [reflexivity | reflexivity | lia | exact S23].
Defined.

End SubnetRelation.

Section RouterLookup.

Lemma find_router_skip ip e rest :
  on_subnet_of ip e false ->
  find_router_for_ip (e :: rest) ip = find_router_for_ip rest ip.
Proof.
  destruct e as [k r]. intros (slash & Hl & Hs). cbn [fst snd] in *.
  cbn [find_router_for_ip]. rewrite (getitem_lookup r _ _ Hl). cbn [bind].
  now rewrite Hs.
Qed.

Lemma find_router_skip_all ip before rest :
  Forall (fun e => on_subnet_of ip e false) before ->
  find_router_for_ip (before ++ rest)%list ip = find_router_for_ip rest ip.
Proof.
  induction 1 as [|e before He _ IH]; [reflexivity|].
  cbn [app]. now rewrite (find_router_skip ip e _ He).
Qed.

(** The first router whose subnet contains the address decides: the
    entries after it are never examined, so they may be anything, even
    routers without a netmask. *)
Theorem find_router_ignores_later_entries
        (before after : dict router) (k : string) (r : router) (ip : string) :
  Forall (fun e => on_subnet_of ip e false) before ->
  on_subnet_of ip (k, r) true ->
  find_router_for_ip (before ++ (k, r) :: after)%list ip = Ok (Some k).
Proof.
  intros Hbefore (slash & Hl & Hs). cbn [fst snd] in *.
  rewrite (find_router_skip_all ip before _ Hbefore).
  cbn [find_router_for_ip]. rewrite (getitem_lookup r _ _ Hl). cbn [bind].
  now rewrite Hs.
Qed.

Lemma find_router_ignores_later_entries_witness :
  Forall (fun e => on_subnet_of "1.2.4.9" e false) [("1.2.3.1", [("netmask", "/24")])]
  /\ on_subnet_of "1.2.4.9" ("1.2.4.1", [("netmask", "/24")]) true
  /\ find_router_for_ip
       ([("1.2.3.1", [("netmask", "/24")])]
          ++ ("1.2.4.1", [("netmask", "/24")]) :: [("no address", [])])%list
       "1.2.4.9"
     = Ok (Some "1.2.4.1").
Proof.
  assert (H1 : Forall (fun e => on_subnet_of "1.2.4.9" e false)
                 [("1.2.3.1", [("netmask", "/24")])]).
  { repeat constructor. exists "/24". split; reflexivity. }
  assert (H2 : on_subnet_of "1.2.4.9" ("1.2.4.1", [("netmask", "/24")]) true).
  { exists "/24". split; reflexivity. }
  split; [exact H1|]. split; [exact H2|].
  apply (find_router_ignores_later_entries
           [("1.2.3.1", [("netmask", "/24")])] [("no address", [])]
           "1.2.4.1" [("netmask", "/24")] "1.2.4.9" H1 H2).
Defined.

(** A router without a "netmask" field that is reached before any match
    makes the search raise [KeyError]. *)
Theorem find_router_missing_netmask
        (before after : dict router) (k : string) (r : router) (ip : string) :
  Forall (fun e => on_subnet_of ip e false) before ->
  lookup r "netmask" = None ->
  find_router_for_ip (before ++ (k, r) :: after)%list ip = Raise KeyError.
Proof.
  intros Hbefore Hl.
  rewrite (find_router_skip_all ip before _ Hbefore).
  cbn [find_router_for_ip]. unfold getitem. now rewrite Hl.
Qed.

Lemma find_router_missing_netmask_witness :
  Forall (fun e => on_subnet_of "1.2.4.9" e false) [("1.2.3.1", [("netmask", "/24")])]
  /\ lookup [("name", "core")] "netmask" = None
  /\ find_router_for_ip
       ([("1.2.3.1", [("netmask", "/24")])]
          ++ ("1.2.4.1", [("name", "core")]) :: [])%list "1.2.4.9"
     = Raise KeyError.
Proof.
  assert (H1 : Forall (fun e => on_subnet_of "1.2.4.9" e false)
                 [("1.2.3.1", [("netmask", "/24")])]).
  { repeat constructor. exists "/24". split; reflexivity. }
  split; [exact H1|]. split; [reflexivity|].
  apply (find_router_missing_netmask
           [("1.2.3.1", [("netmask", "/24")])] [] "1.2.4.1" [("name", "core")]
           "1.2.4.9" H1 eq_refl).
Defined.

(** Whatever the table, a result of [find_router_for_ip] is justified by
    the table: a returned key is the key of the first entry whose test is
    true, every entry before it having tested false; [None] means that
    every entry tested false. *)
Theorem find_router_result_justified
        (routers : dict router) (ip : string) (found : option string) :
  find_router_for_ip routers ip = Ok found ->
  match found with
  | Some k =>
      exists before r after,
        routers = (before ++ (k, r) :: after)%list
        /\ on_subnet_of ip (k, r) true
        /\ Forall (fun e => on_subnet_of ip e false) before
  | None => Forall (fun e => on_subnet_of ip e false) routers
  end.
Proof.
  revert found. induction routers as [|[k r] rest IH]; intros found.
  - intros [= <-]. constructor.
  - cbn [find_router_for_ip]. unfold getitem.
    destruct (lookup r "netmask") as [slash|] eqn:Hl; cbn [bind]; [|discriminate].
    destruct (ips_same_subnet ip k slash) as [[|]|] eqn:Hs; cbn [bind];
      [| |discriminate].
    + intros [= <-]. exists [], r, rest. repeat split; [|constructor].
      exists slash. now split.
    + intros H. specialize (IH found H).
      assert (Hhere : on_subnet_of ip (k, r) false) by (exists slash; now split).
      destruct found as [k'|].
      * destruct IH as (before & r' & after & -> & Hin & Hbefore).
        exists ((k, r) :: before), r', after. repeat split; auto.
      * now constructor.
Qed.

Lemma find_router_result_justified_witness :
  find_router_for_ip
    [("1.2.3.1", [("netmask", "/24")]); ("1.2.4.1", [("netmask", "/24")])]
    "1.2.4.9" = Ok (Some "1.2.4.1")
  /\ exists before r after,
      [("1.2.3.1", [("netmask", "/24")]); ("1.2.4.1", [("netmask", "/24")])]
      = (before ++ ("1.2.4.1", r) :: after)%list
      /\ on_subnet_of "1.2.4.9" ("1.2.4.1", r) true
      /\ Forall (fun e => on_subnet_of "1.2.4.9" e false) before.
Proof.
  split; [reflexivity|].
  apply (find_router_result_justified
           [("1.2.3.1", [("netmask", "/24")]); ("1.2.4.1", [("netmask", "/24")])]
           "1.2.4.9" (Some "1.2.4.1") eq_refl).
Defined.

(** [find_router_for_ip] raises only [KeyError] (a router without
    "netmask") or [ValueError] (a malformed address or netmask). *)
Theorem find_router_raises (routers : dict router) (ip : string) (e : exn) :
  find_router_for_ip routers ip = Raise e -> e = KeyError \/ e = ValueError.
Proof.
  induction routers as [|[k r] rest IH]; cbn [find_router_for_ip]; [discriminate|].
  unfold getitem.
  destruct (lookup r "netmask") as [slash|]; cbn [bind];
    [|intros [= <-]; now left].
  destruct (ips_same_subnet ip k slash) as [[|]|e'] eqn:Hs; cbn [bind].
  - discriminate.
  - exact IH.
  - intros [= <-]. right. now apply (ips_same_subnet_raise ip k slash).
Qed.

Lemma find_router_raises_witness :
  find_router_for_ip [("1.2.3.1", [("netmask", "/40")])] "1.2.3.4"
  = Raise ValueError
  /\ (ValueError = KeyError \/ ValueError = ValueError).
Proof.
  split; [reflexivity|].
  apply (find_router_raises [("1.2.3.1", [("netmask", "/40")])] "1.2.3.4"
           ValueError eq_refl).
Defined.

End RouterLookup.

Section SortingFacts.

Context {A : Type} (lt : A -> A -> result bool).

Lemma insert_sorted_total x l :
  (forall y, In y l -> exists c, lt y x = Ok c) ->
  exists r, insert_sorted lt x l = Ok r /\ forall z, In z r <-> z = x \/ In z l.
Proof.
  induction l as [|y l IH]; intros Hlt; cbn [insert_sorted].
  - exists [x]. split; [reflexivity|]. intros z. cbn. intuition congruence.
  - destruct (Hlt y (or_introl eq_refl)) as [c ->]. cbn [bind].
    destruct c.
    + destruct IH as (r & -> & Hr); [intros y' Hy'; apply Hlt; now right|].
      cbn [bind]. exists (y :: r). split; [reflexivity|].
      intros z. cbn [In]. rewrite Hr. intuition congruence.
    + exists (x :: y :: l). split; [reflexivity|].
      intros z. cbn [In]. intuition congruence.
Qed.

(** When the comparison never raises on the elements of the list, [sorted]
    returns a list with the same elements. *)
Lemma sorted_total l :
  (forall a b, In a l -> In b l -> exists c, lt a b = Ok c) ->
  exists r, sorted lt l = Ok r /\ forall z, In z r <-> In z l.
Proof.
  induction l as [|x l IH]; intros Hlt; cbn [sorted].
  - exists []. split; [reflexivity | tauto].
  - destruct IH as (r & -> & Hr).
    { intros a b Ha Hb. apply Hlt; now right. }
    cbn [bind].
    destruct (insert_sorted_total x r) as (r' & -> & Hr').
    { intros y Hy. apply Hlt; [right; now apply Hr | now left]. }
    exists r'. split; [reflexivity|].
    intros z. rewrite Hr', Hr. cbn [In]. intuition congruence.
Qed.

End SortingFacts.

Section HostMapFacts.

Lemma key_eqb_spec a b : reflect (a = b) (key_eqb a b).
Proof.
  destruct a as [x|], b as [y|]; cbn [key_eqb]; try (constructor; congruence).
  destruct (String.eqb_spec x y); constructor; congruence.
Qed.

Lemma host_map_mem_iff m k : host_map_mem m k = true <-> In k (map fst m).
Proof.
  unfold host_map_mem. rewrite existsb_exists, in_map_iff. split.
  - intros (e & He & Hk). exists e. split; [|exact He].
    now destruct (key_eqb_spec (fst e) k).
  - intros (e & Hk & He). exists e. split; [exact He|].
    now destruct (key_eqb_spec (fst e) k).
Qed.

Lemma host_map_append_keys m k ip :
  map fst (host_map_append m k ip) = map fst m.
Proof.
  induction m as [|[k' ips] m IH]; [reflexivity|]. cbn [host_map_append].
  destruct (key_eqb k' k); cbn [map fst]; [reflexivity | now rewrite IH].
Qed.

(** With distinct keys, appending touches the bucket of the key and no
    other. *)
Lemma host_map_append_entries m k ip k' ips' :
  NoDup (map fst m) ->
  In (k', ips') (host_map_append m k ip) ->
  (k' <> k /\ In (k', ips') m)
  \/ (k' = k /\ exists ips, In (k', ips) m /\ ips' = (ips ++ [ip])%list).
Proof.
  induction m as [|[k0 ips0] m IH]; [contradiction|].
  cbn [map fst host_map_append]. intros Hnd Hin. inversion Hnd as [|? ? Hk0 Hnd']; subst.
  destruct (key_eqb_spec k0 k) as [->|Hne].
  - destruct Hin as [[= <- <-]|Hin].
    + right. split; [reflexivity|]. exists ips0. split; [now left | reflexivity].
    + left. split; [|now right]. intros ->. apply Hk0.
      change k with (fst (k, ips')). now apply in_map.
  - destruct Hin as [[= <- <-]|Hin].
    + left. split; [exact Hne | now left].
    + destruct (IH Hnd' Hin) as [[Hk Hi]|(Hk & ips & Hi & E)].
      * left. split; [exact Hk | now right].
      * right. split; [exact Hk|]. exists ips. split; [now right | exact E].
Qed.

Lemma host_map_append_present m k ip :
  In k (map fst m) ->
  exists ips, In (k, (ips ++ [ip])%list) (host_map_append m k ip).
Proof.
  induction m as [|[k0 ips0] m IH]; [contradiction|].
  cbn [map fst host_map_append]. intros Hin.
  destruct (key_eqb_spec k0 k) as [->|Hne].
  - exists ips0. now left.
  - destruct Hin as [Hk|Hin]; [congruence|].
    destruct (IH Hin) as [ips Hi]. exists ips. now right.
Qed.

Lemma NoDup_snoc {A : Type} (l : list A) (x : A) :
  NoDup l -> ~ In x l -> NoDup (l ++ [x])%list.
Proof.
  induction 1 as [|y l Hy Hnd IH]; intros Hx; cbn [app].
  - constructor; [intros [] | constructor].
  - constructor.
    + intros Hin. apply in_app_or in Hin as [Hin|[->|[]]]; [now apply Hy|].
      apply Hx. now left.
    + apply IH. intros Hin. apply Hx. now right.
Qed.

Lemma filter_none {A : Type} (f : A -> bool) (l : list A) :
  (forall x, In x l -> f x = false) -> filter f l = [].
Proof.
  induction l as [|x l IH]; intros H; cbn [filter]; [reflexivity|].
  rewrite (H x (or_introl eq_refl)). apply IH. intros y Hy. apply H. now right.
Qed.

Variable routers : dict router.


Lemma routed_to_found ip found k :
  find_router_for_ip routers ip = Ok found ->
  routed_to routers k ip = key_eqb found k.
Proof. unfold routed_to. now intros ->. Qed.

Lemma step_keeps_inv m done ip m' :
  host_map_inv routers m done -> host_map_step routers m ip = Ok m' -> host_map_inv routers m' (done ++ [ip])%list.
Proof.
  intros (Hnd & Hbuckets & Hkeys). unfold host_map_step.
  destruct (find_router_for_ip routers ip) as [found|] eqn:Hf; cbn [bind];
    [|discriminate].
  intros [= <-].
  set (m1 := if host_map_mem m found then m else (m ++ [(found, [])])%list).
  assert (Hm1 : NoDup (map fst m1)
                /\ In found (map fst m1)
                /\ (forall k, In k (map fst m) -> In k (map fst m1))
                /\ (forall k ips, In (k, ips) m1 ->
                      In (k, ips) m
                      \/ (k = found /\ ips = [] /\ ~ In found (map fst m)))).
  { subst m1. destruct (host_map_mem m found) eqn:Hmem.
    - apply host_map_mem_iff in Hmem. repeat split; auto.
    - assert (Hnot : ~ In found (map fst m)).
      { intros H. apply host_map_mem_iff in H. congruence. }
      rewrite map_app. cbn [map fst]. repeat split.
      + now apply NoDup_snoc.
      + apply in_or_app. right. now left.
      + intros k Hk. apply in_or_app. now left.
      + intros k ips Hin. apply in_app_or in Hin as [Hin|[[= <- <-]|[]]];
          [now left | right; auto]. }
  destruct Hm1 as (Hnd1 & Hfound & Hmono & Hentries).
  split; [now rewrite host_map_append_keys|]. split.
  - intros k ips Hin. rewrite filter_app. cbn [filter].
    rewrite (routed_to_found ip found k Hf).
    destruct (host_map_append_entries m1 found ip k ips Hnd1 Hin)
      as [[Hk Hi]|(-> & ips0 & Hi & ->)].
    + destruct (Hentries k ips Hi) as [Hold|(-> & _)]; [|congruence].
      destruct (Hbuckets k ips Hold) as [Hne E].
      destruct (key_eqb_spec found k) as [->|_]; [congruence|].
      now rewrite List.app_nil_r.
    + destruct (key_eqb_spec found found) as [_|]; [|congruence].
      split; [now destruct ips0|]. f_equal.
      destruct (Hentries found ips0 Hi) as [Hold|(_ & -> & Hnot)].
      * now destruct (Hbuckets found ips0 Hold).
      * symmetry. apply filter_none. intros ip' Hip'.
        destruct (Hkeys ip' Hip') as (k' & Hf' & Hk').
        rewrite (routed_to_found ip' k' found Hf').
        destruct (key_eqb_spec k' found) as [->|]; [contradiction | reflexivity].
  - intros ip' Hip'. rewrite host_map_append_keys.
    apply in_app_or in Hip' as [Hip'|[<-|[]]].
    + destruct (Hkeys ip' Hip') as (k' & Hf' & Hk'). exists k'. auto.
    + exists found. auto.
Qed.

Lemma loop_keeps_inv rest m done m' :
  host_map_inv routers m done ->
  for_each rest (host_map_step routers) m = Ok m' ->
  host_map_inv routers m' (done ++ rest)%list.
Proof.
  revert m done. induction rest as [|ip rest IH]; intros m done Hinv.
  - intros [= <-]. now rewrite List.app_nil_r.
  - cbn [for_each]. destruct (host_map_step routers m ip) as [m1|] eqn:Hs;
      cbn [bind]; [|discriminate].
    intros H. replace (done ++ ip :: rest)%list with ((done ++ [ip]) ++ rest)%list
      by now rewrite <- app_assoc.
    apply (IH m1); [|exact H]. now apply (step_keeps_inv m done ip).
Qed.

Lemma build_host_map_inv all_ips m :
  build_host_map routers all_ips = Ok m -> host_map_inv routers m all_ips.
Proof.
  intros H. apply (loop_keeps_inv all_ips [] [] m); [|exact H].
  split; [constructor|]. split; [intros k ips []|intros ip []].
Qed.

Lemma build_host_map_total all_ips :
  (forall ip, In ip all_ips -> exists k, find_router_for_ip routers ip = Ok k) ->
  exists m, build_host_map routers all_ips = Ok m.
Proof.
  unfold build_host_map. fold (host_map_step routers). generalize ([] : host_map).
  induction all_ips as [|ip rest IH]; intros m Hall; cbn [for_each]; [eauto|].
  unfold host_map_step at 1. destruct (Hall ip (or_introl eq_refl)) as [k ->]. cbn [bind].
  apply IH. intros ip' Hip'. apply Hall. now right.
Qed.

End HostMapFacts.

Section OutputFacts.

Lemma only_stdout_refl w : only_stdout w w.
Proof.
  repeat split. exists "". induction (stdout w) as [|c s IH]; cbn; congruence.
Qed.

Lemma only_stdout_trans w1 w2 w3 :
  only_stdout w1 w2 -> only_stdout w2 w3 -> only_stdout w1 w3.
Proof.
  intros (E1 & F1 & o1 & O1) (E2 & F2 & o2 & O2).
  repeat split; try congruence.
  exists (o1 ++ o2). now rewrite O2, O1, append_assoc.
Qed.

Lemma print_end_frame s e w : only_stdout w (snd (print_end s e w)).
Proof. repeat split. now exists (s ++ e). Qed.

Lemma print_frame s w : only_stdout w (snd (print s w)).
Proof. apply print_end_frame. Qed.

Lemma lift_frame {A : Type} (r : result A) w : only_stdout w (snd (lift r w)).
Proof. apply only_stdout_refl. Qed.

Lemma bindIO_frame {A B : Type} (c : IO A) (k : A -> IO B) w :
  only_stdout w (snd (c w)) ->
  (forall a w', only_stdout w' (snd (k a w'))) ->
  only_stdout w (snd (bindIO c k w)).
Proof.
  intros Hc Hk. unfold bindIO. destruct (c w) as [[a|e] w'] eqn:E; cbn [snd] in *.
  - apply (only_stdout_trans w w'); [exact Hc | apply Hk].
  - exact Hc.
Qed.

Lemma for_io_frame {A : Type} (l : list A) (f : A -> IO unit) :
  (forall x w, only_stdout w (snd (f x w))) ->
  forall w, only_stdout w (snd (for_io l f w)).
Proof.
  intros Hf. induction l as [|x l IH]; intros w; cbn [for_io].
  - apply only_stdout_refl.
  - apply bindIO_frame; [apply Hf | intros _ w'; apply IH].
Qed.

Lemma bindIO_ok {A B : Type} (c : IO A) (k : A -> IO B) w a w' :
  c w = (Ok a, w') -> bindIO c k w = k a w'.
Proof. unfold bindIO. now intros ->. Qed.

Lemma for_io_succeeds {A : Type} (l : list A) (f : A -> IO unit) :
  (forall x, In x l -> forall w, fst (f x w) = Ok tt) ->
  forall w, fst (for_io l f w) = Ok tt.
Proof.
  induction l as [|x l IH]; intros Hf w; cbn [for_io]; [reflexivity|].
  unfold bindIO. pose proof (Hf x (or_introl eq_refl) w) as Hx.
  destruct (f x w) as [[[]|e] w']; cbn [fst] in Hx; [|discriminate Hx].
  apply IH. intros y Hy. apply Hf. now right.
Qed.

(** The three report functions only write to the output stream: whether
    they finish or raise, the error stream and the files are as before and
    the output stream has only grown. *)
Theorem report_functions_only_write_stdout
        (routers : dict router) (src_dest_pairs : list (list string)) (w : world) :
  only_stdout w (snd (print_routers routers w))
  /\ only_stdout w (snd (print_same_subnets src_dest_pairs w))
  /\ only_stdout w (snd (print_ip_routers routers src_dest_pairs w)).
Proof.
  split; [|split].
  - unfold print_routers. apply bindIO_frame; [apply print_frame|].
    intros _ w1. apply bindIO_frame; [apply lift_frame|].
    intros ks w2. apply for_io_frame. intros k w3.
    apply bindIO_frame; [apply lift_frame | intros line w4; apply print_frame].
  - unfold print_same_subnets. apply bindIO_frame; [apply print_frame|].
    intros _ w1. apply bindIO_frame; [apply lift_frame|].
    intros ps w2. apply for_io_frame. intros pair w3.
    apply bindIO_frame; [apply lift_frame|]. intros [src_ip dest_ip] w4.
    apply bindIO_frame; [apply print_end_frame|]. intros _ w5.
    apply bindIO_frame; [apply lift_frame|]. intros [|] w6; apply print_frame.
  - unfold print_ip_routers. apply bindIO_frame; [apply print_frame|].
    intros _ w1. apply bindIO_frame; [apply lift_frame|].
    intros ips w2. apply bindIO_frame; [apply lift_frame|].
    intros m w3. apply bindIO_frame; [apply lift_frame|].
    intros ks w4. apply for_io_frame. intros k w5.
    apply bindIO_frame; [apply lift_frame | intros line w6; apply print_frame].
Qed.

End OutputFacts.

Section AddressList.

Lemma ltb_leb a b : String.ltb a b = true -> String.leb a b = true.
Proof. unfold String.ltb, String.leb. now destruct (String.compare a b). Qed.

Lemma not_ltb_leb a b : String.ltb a b = false -> String.leb b a = true.
Proof.
  unfold String.ltb, String.leb. rewrite (String.compare_antisym a b).
  now destruct (String.compare b a).
Qed.

Lemma insert_sorted_ascending x l :
  ascending l ->
  exists r,
    insert_sorted str_lt x l = Ok r
    /\ ascending r
    /\ (forall z, In z r <-> z = x \/ In z l)
    /\ (forall a, (forall y rest, l = y :: rest -> String.leb a y = true) ->
          String.leb a x = true ->
          forall y rest, r = y :: rest -> String.leb a y = true).
Proof.
  induction l as [|y l IH]; intros Hl; cbn [insert_sorted].
  - exists [x]. split; [reflexivity|]. split; [exact I|]. split.
    + intros z. cbn. intuition congruence.
    + intros a _ Hax y rest [= <- <-]. exact Hax.
  - unfold str_lt at 1. cbn [bind].
    assert (Hl' : ascending l) by (destruct l; [exact I | apply Hl]).
    destruct (String.ltb y x) eqn:Hyx.
    + destruct (IH Hl') as (r & -> & Hr & Hin & Hhd). cbn [bind].
      exists (y :: r). split; [reflexivity|]. split; [|split].
      * destruct r as [|z r']; [exact I|]. split; [|exact Hr].
        refine (Hhd y _ (ltb_leb _ _ Hyx) z r' eq_refl).
        intros y' rest ->. apply Hl.
      * intros z. cbn [In]. rewrite Hin. intuition congruence.
      * intros a Ha _ y' rest [= <- <-]. now apply (Ha y l).
    + exists (x :: y :: l). split; [reflexivity|]. split; [|split].
      * split; [now apply not_ltb_leb | exact Hl].
      * intros z. cbn [In]. intuition congruence.
      * intros a _ Hax y' rest [= <- <-]. exact Hax.
Qed.

Lemma sorted_ascending l :
  exists r, sorted str_lt l = Ok r /\ ascending r /\ forall z, In z r <-> In z l.
Proof.
  induction l as [|x l (r & Hs & Hr & Hin)]; cbn [sorted].
  - exists []. split; [reflexivity|]. split; [exact I | tauto].
  - rewrite Hs. cbn [bind].
    destruct (insert_sorted_ascending x r Hr) as (r' & -> & Hr' & Hin' & _).
    exists r'. split; [reflexivity|]. split; [exact Hr'|].
    intros z. rewrite Hin', Hin. cbn [In]. intuition congruence.
Qed.

Lemma insert_sorted_nodup x l r :
  insert_sorted str_lt x l = Ok r -> NoDup l -> ~ In x l -> NoDup r.
Proof.
  revert r. induction l as [|y l IH]; intros r; cbn [insert_sorted].
  - intros [= <-] _ _. constructor; [intros [] | constructor].
  - unfold str_lt at 1. cbn [bind]. intros H Hnd Hx.
    inversion Hnd as [|? ? Hy Hnd']; subst.
    destruct (String.ltb y x).
    + destruct (insert_sorted str_lt x l) as [r'|] eqn:E; cbn [bind] in H;
        [|discriminate H].
      injection H as <-. constructor.
      * intros Hin.
        destruct (insert_sorted_total str_lt x l) as (r'' & E' & Hmem).
        { intros z _. now eexists. }
        rewrite E in E'. injection E' as <-.
        apply Hmem in Hin as [->|Hin]; [apply Hx; now left | contradiction].
      * apply IH; [reflexivity | exact Hnd' | intros Hin; apply Hx; now right].
    + injection H as <-. now constructor.
Qed.

Lemma sorted_nodup l r : sorted str_lt l = Ok r -> NoDup l -> NoDup r.
Proof.
  revert r. induction l as [|x l IH]; intros r; cbn [sorted].
  - intros [= <-] _. constructor.
  - destruct (sorted str_lt l) as [r0|] eqn:E; cbn [bind]; [|discriminate].
    intros H Hnd. inversion Hnd as [|? ? Hx Hnd']; subst.
    apply (insert_sorted_nodup x r0 r H); [now apply IH|].
    destruct (sorted_total str_lt l) as (r1 & E1 & Hmem).
    { intros a b _ _. now eexists. }
    rewrite E in E1. injection E1 as <-. now rewrite Hmem.
Qed.

Lemma all_ips_spec (src_dest_pairs : list (list string)) :
  exists all_ips,
    sorted str_lt (set_of (List.concat src_dest_pairs)) = Ok all_ips
    /\ (forall ip, In ip all_ips <-> In ip (List.concat src_dest_pairs))
    /\ NoDup all_ips
    /\ ascending all_ips.
Proof.
  destruct (sorted_ascending (set_of (List.concat src_dest_pairs)))
    as (r & Hs & Hasc & Hin).
  exists r. split; [exact Hs|]. split; [|split; [|exact Hasc]].
  - intros ip. rewrite Hin. unfold set_of. apply nodup_In.
  - apply (sorted_nodup _ _ Hs). apply NoDup_nodup.
Qed.

(** The address list of [print_ip_routers], [sorted(set(...))] of the
    flattened pairs, is always computed: it holds exactly the addresses of
    the pairs, each once, in ascending order. *)
Theorem all_ips_sorted_distinct (src_dest_pairs : list (list string)) :
  exists all_ips,
    sorted str_lt (set_of (List.concat src_dest_pairs)) = Ok all_ips
    /\ (forall ip, In ip all_ips <-> In ip (List.concat src_dest_pairs))
    /\ NoDup all_ips
    /\ ascending all_ips.
Proof. intros. eapply all_ips_spec; eassumption. Qed.

End AddressList.

Section RouterReport.

(** The host map [print_ip_routers] builds: its keys are distinct, every
    address processed has the result of its search among the keys, and the
    bucket of a key is never empty and lists exactly the addresses routed
    to that key, in the order of the address list. *)
Theorem build_host_map_buckets
        (routers : dict router) (all_ips : list string) (m : host_map) :
  build_host_map routers all_ips = Ok m ->
  NoDup (map fst m)
  /\ (forall ip, In ip all_ips ->
        exists k, find_router_for_ip routers ip = Ok k /\ In k (map fst m))
  /\ (forall k ips, In (k, ips) m ->
        ips <> [] /\ ips = filter (routed_to routers k) all_ips).
Proof.
  intros H. destruct (build_host_map_inv routers all_ips m H) as (Hnd & Hb & Hk).
  split; [exact Hnd|]. split; [exact Hk | exact Hb].
Qed.

Lemma build_host_map_buckets_witness :
  build_host_map [("1.2.3.1", [("netmask", "/24")])] ["1.2.3.5"; "1.2.5.6"; "1.2.3.9"]
  = Ok [(Some "1.2.3.1", ["1.2.3.5"; "1.2.3.9"]); (None, ["1.2.5.6"])]
  /\ NoDup (map fst [(Some "1.2.3.1", ["1.2.3.5"; "1.2.3.9"]); (None, ["1.2.5.6"])])
  /\ (forall ip, In ip ["1.2.3.5"; "1.2.5.6"; "1.2.3.9"] ->
        exists k,
          find_router_for_ip [("1.2.3.1", [("netmask", "/24")])] ip = Ok k
          /\ In k (map fst [(Some "1.2.3.1", ["1.2.3.5"; "1.2.3.9"]);
                            (None, ["1.2.5.6"])]))
  /\ (forall k ips,
        In (k, ips) [(Some "1.2.3.1", ["1.2.3.5"; "1.2.3.9"]); (None, ["1.2.5.6"])] ->
        ips <> []
        /\ ips = filter (routed_to [("1.2.3.1", [("netmask", "/24")])] k)
                   ["1.2.3.5"; "1.2.5.6"; "1.2.3.9"]).
Proof.
  split; [reflexivity|].
  apply (build_host_map_buckets [("1.2.3.1", [("netmask", "/24")])]
           ["1.2.3.5"; "1.2.5.6"; "1.2.3.9"]
           [(Some "1.2.3.1", ["1.2.3.5"; "1.2.3.9"]); (None, ["1.2.5.6"])]).
  reflexivity.
Defined.

Lemma host_map_get_present m k :
  In k (map fst m) -> exists ips, host_map_get m k = Ok ips.
Proof.
  induction m as [|[k0 ips0] m IH]; [contradiction|].
  cbn [map fst host_map_get]. intros Hin.
  destruct (key_eqb_spec k0 k) as [->|Hne]; [eauto|].
  destruct Hin as [Hk|Hin]; [congruence | now apply IH].
Qed.

Lemma filter_nonempty {A : Type} (f : A -> bool) (l : list A) :
  filter f l <> [] -> exists x, In x l /\ f x = true.
Proof.
  induction l as [|x l IH]; cbn [filter]; [congruence|].
  destruct (f x) eqn:E.
  - intros _. exists x. split; [now left | exact E].
  - intros H. destruct (IH H) as (y & Hy & Ey). exists y. split; [now right | exact Ey].
Qed.

Lemma print_ip_routers_outcome
        (routers : dict router) (src_dest_pairs : list (list string)) (w : world) :
  (forall ip, In ip (List.concat src_dest_pairs) ->
     exists k, find_router_for_ip routers ip = Ok k) ->
  (fst (print_ip_routers routers src_dest_pairs w) = Ok tt
   <-> forall ip, In ip (List.concat src_dest_pairs) ->
         find_router_for_ip routers ip <> Ok None)
  /\ ((exists ip, In ip (List.concat src_dest_pairs)
                  /\ find_router_for_ip routers ip = Ok None)
      -> fst (print_ip_routers routers src_dest_pairs w) = Raise TypeError).
Proof.
  intros Hfind.
  destruct (all_ips_spec src_dest_pairs) as (all_ips & Hs & Hmem & _ & _).
  destruct (build_host_map_total routers all_ips) as [m Hm].
  { intros ip Hip. apply Hfind. now apply Hmem. }
  destruct (build_host_map_inv routers all_ips m Hm) as (Hnd & Hbuckets & Hkeys).
  assert (Hraise : (exists ip, In ip (List.concat src_dest_pairs)
                               /\ find_router_for_ip routers ip = Ok None)
                   -> fst (print_ip_routers routers src_dest_pairs w)
                      = Raise TypeError).
  { intros (ip & Hip & Hnone).
    apply (print_ip_routers_none_raises routers src_dest_pairs all_ips m w Hs Hm).
    destruct (Hkeys ip (proj2 (Hmem ip) Hip)) as (k & Hk & Hin). congruence. }
  split; [split|exact Hraise].
  - intros Hok ip Hip Hnone.
    rewrite Hraise in Hok by (exists ip; now split). discriminate Hok.
  - intros Hall.
    assert (Hsome : forall k, In k (map fst m) -> k <> None).
    { intros k Hin ->. apply in_map_iff in Hin as ([k ips] & Hk & Hin).
      cbn [fst] in Hk. subst k.
      destruct (Hbuckets None ips Hin) as [Hne E]. rewrite E in Hne.
      destruct (filter_nonempty _ _ Hne) as (ip & Hip & Hr).
      apply (Hall ip (proj1 (Hmem ip) Hip)).
      unfold routed_to in Hr. destruct (find_router_for_ip routers ip) as [[k|]|];
        [discriminate Hr | reflexivity | discriminate Hr]. }
    destruct (sorted_total key_lt (map fst m)) as (ks & Hks & Hin).
    { intros a b Ha Hb. destruct a as [a|], b as [b|].
      - now eexists.
      - exfalso. exact (Hsome None Hb eq_refl).
      - exfalso. exact (Hsome None Ha eq_refl).
      - exfalso. exact (Hsome None Ha eq_refl). }
    unfold print_ip_routers, bindIO, lift, print, print_end.
    rewrite Hs, Hm, Hks. fold (@bindIO string unit). fold (@lift string).
    apply for_io_succeeds. intros k Hk w'.
    apply Hin in Hk. destruct (host_map_get_present m k Hk) as [ips Hget].
    destruct k as [k|]; [|exfalso; now apply (Hsome None Hk)].
    unfold bindIO, lift. cbn [format_key bind]. rewrite Hget. reflexivity.
Qed.

(** When the search succeeds for every address of the pairs, the router
    section is printed exactly when every address has a router; as soon
    as one address has none, [print_ip_routers] raises [TypeError]. *)
Theorem print_ip_routers_succeeds_iff
        (routers : dict router) (src_dest_pairs : list (list string)) (w : world) :
  (forall ip, In ip (List.concat src_dest_pairs) ->
     exists k, find_router_for_ip routers ip = Ok k) ->
  (fst (print_ip_routers routers src_dest_pairs w) = Ok tt
   <-> forall ip, In ip (List.concat src_dest_pairs) ->
         find_router_for_ip routers ip <> Ok None)
  /\ ((exists ip, In ip (List.concat src_dest_pairs)
                  /\ find_router_for_ip routers ip = Ok None)
      -> fst (print_ip_routers routers src_dest_pairs w) = Raise TypeError).
Proof. intros. eapply print_ip_routers_outcome; eassumption. Qed.

Lemma print_ip_routers_succeeds_iff_witness :
  (forall ip, In ip (List.concat [["1.2.3.5"; "1.2.5.6"]]) ->
     exists k, find_router_for_ip [("1.2.3.1", [("netmask", "/24")])] ip = Ok k)
  /\ (fst (print_ip_routers [("1.2.3.1", [("netmask", "/24")])]
             [["1.2.3.5"; "1.2.5.6"]]
             {| stdout := ""; stderr := ""; files := fun _ => Raise KeyError |})
      = Ok tt
      <-> forall ip, In ip (List.concat [["1.2.3.5"; "1.2.5.6"]]) ->
            find_router_for_ip [("1.2.3.1", [("netmask", "/24")])] ip <> Ok None)
  /\ ((exists ip, In ip (List.concat [["1.2.3.5"; "1.2.5.6"]])
                  /\ find_router_for_ip [("1.2.3.1", [("netmask", "/24")])] ip
                     = Ok None)
      -> fst (print_ip_routers [("1.2.3.1", [("netmask", "/24")])]
                [["1.2.3.5"; "1.2.5.6"]]
                {| stdout := ""; stderr := ""; files := fun _ => Raise KeyError |})
         = Raise TypeError).
Proof.
  assert (H : forall ip, In ip (List.concat [["1.2.3.5"; "1.2.5.6"]]) ->
              exists k, find_router_for_ip [("1.2.3.1", [("netmask", "/24")])] ip
                        = Ok k).
  { intros ip [<-|[<-|[]]]; eexists; reflexivity. }
  split; [exact H|].
  apply (print_ip_routers_succeeds_iff [("1.2.3.1", [("netmask", "/24")])]
           [["1.2.3.5"; "1.2.5.6"]]
           {| stdout := ""; stderr := ""; files := fun _ => Raise KeyError |} H).
Defined.

End RouterReport.

Section ReportSections.

Lemma lookup_of_key {V : Type} (d : dict V) (k : string) :
  In k (keys d) -> exists v, lookup d k = Some v /\ In (k, v) d.
Proof.
  unfold keys. induction d as [|[k0 v0] d IH]; [contradiction|].
  cbn [map fst lookup]. intros Hin.
  destruct (String.eqb_spec k0 k) as [->|Hne].
  - exists v0. split; [reflexivity | now left].
  - destruct Hin as [Hk|Hin]; [congruence|].
    destruct (IH Hin) as (v & Hl & Hv). exists v. split; [exact Hl | now right].
Qed.

Lemma append_nil_r (a : string) : a ++ "" = a.
Proof. induction a as [|c a IH]; cbn [append]; congruence. Qed.

Lemma concat_cons (x : string) (xs : list string) :
  String.concat "" (x :: xs) = x ++ String.concat "" xs.
Proof. destruct xs; cbn [String.concat append]; [now rewrite append_nil_r | reflexivity]. Qed.

(** A loop whose passes each append one piece of text appends the pieces
    in order. *)
Lemma for_io_output {A : Type} (R : A -> string -> Prop) (l : list A)
      (f : A -> IO unit) :
  (forall x, In x l ->
     exists out, R x out
       /\ forall w, f x w
                    = (Ok tt, {| stdout := stdout w ++ out; stderr := stderr w;
                                 files := files w |})) ->
  exists outs,
    Forall2 R l outs
    /\ forall w, for_io l f w
                 = (Ok tt, {| stdout := stdout w ++ String.concat "" outs;
                              stderr := stderr w; files := files w |}).
Proof.
  induction l as [|x l IH]; intros Hf.
  - exists []. split; [constructor|]. intros [o e fs]. cbn [for_io ret String.concat].
    cbn [stdout stderr files]. now rewrite append_nil_r.
  - destruct (Hf x (or_introl eq_refl)) as (out & Hout & Hx).
    destruct IH as (outs & Houts & Hrest).
    { intros y Hy. apply Hf. now right. }
    exists (out :: outs). split; [now constructor|]. intros w.
    cbn [for_io]. unfold bindIO. rewrite Hx, Hrest. cbn [stdout stderr files].
    now rewrite concat_cons, append_assoc.
Qed.

Lemma print_routers_ok (routers : dict router) (w : world) :
  Forall router_entry_ok routers -> fst (print_routers routers w) = Ok tt.
Proof.
  intros Hok. unfold print_routers.
  destruct (sorted_total str_lt (keys routers)) as (ks & Hks & Hin).
  { intros a b _ _. now eexists. }
  unfold bindIO at 1 2. unfold print, print_end, lift at 1. rewrite Hks.
  apply for_io_succeeds. intros k Hk w'.
  apply Hin in Hk. destruct (lookup_of_key routers k Hk) as (r & Hl & Hr).
  rewrite Forall_forall in Hok.
  destruct (Hok _ Hr) as (Hkey & slash & n & Hnm & Hs & Hn). cbn [fst snd] in *.
  destruct (ipv4_to_value_total k Hkey) as (v & Hv & _).
  unfold bindIO, lift.
  rewrite (getitem_lookup routers k r Hl). cbn [bind].
  rewrite (getitem_lookup r _ _ Hnm). cbn [bind].
  rewrite (get_subnet_mask_value_slash slash n Hs Hn). cbn [bind].
  rewrite value_to_ipv4_octets. cbn [bind]. rewrite Hv. cbn [bind].
  rewrite value_to_ipv4_octets. reflexivity.
Qed.

(** On a table whose entries are all well formed, [print_routers] prints
    its section and returns: after the heading comes one line per router
    key, the keys in ascending order; the line of a router shows its
    address right-aligned in 15 columns, the dotted form of the mask of
    its prefix length, and the dotted form of its address under that
    mask.  Nothing else is written. *)
Theorem print_routers_succeeds (routers : dict router) (w : world) :
  Forall router_entry_ok routers ->
  exists router_list lines,
    sorted str_lt (keys routers) = Ok router_list
    /\ (forall k, In k router_list <-> In k (keys routers))
    /\ ascending router_list
    /\ Forall2
         (fun router_ip line =>
            exists r slash n v netmask network_ip,
              lookup routers router_ip = Some r
              /\ lookup r "netmask" = Some slash
              /\ slash_notation slash n /\ 0 <= n <= 32
              /\ ipv4_to_value router_ip = Ok v
              /\ value_to_ipv4 (2 ^ 32 - 2 ^ (32 - n)) = Ok (PStr netmask)
              /\ value_to_ipv4 (Z.land v (2 ^ 32 - 2 ^ (32 - n)))
                 = Ok (PStr network_ip)
              /\ line = " " ++ rjust 15 router_ip ++ ": netmask " ++ netmask
                            ++ ": network " ++ network_ip ++ newline)
         router_list lines
    /\ print_routers routers w
       = (Ok tt,
          {| stdout := stdout w ++ "Routers:" ++ newline ++ String.concat "" lines;
             stderr := stderr w; files := files w |}).
Proof.
  intros Hok.
  destruct (sorted_ascending (keys routers)) as (ks & Hks & Hasc & Hin).
  exists ks.
  destruct (for_io_output
              (fun router_ip line =>
                 exists r slash n v netmask network_ip,
                   lookup routers router_ip = Some r
                   /\ lookup r "netmask" = Some slash
                   /\ slash_notation slash n /\ 0 <= n <= 32
                   /\ ipv4_to_value router_ip = Ok v
                   /\ value_to_ipv4 (2 ^ 32 - 2 ^ (32 - n)) = Ok (PStr netmask)
                   /\ value_to_ipv4 (Z.land v (2 ^ 32 - 2 ^ (32 - n)))
                      = Ok (PStr network_ip)
                   /\ line = " " ++ rjust 15 router_ip ++ ": netmask " ++ netmask
                                 ++ ": network " ++ network_ip ++ newline)
              ks
              (fun router_ip =>
                 line <~ lift (
                   r <- getitem routers router_ip ;;
                   slash_mask <- getitem r "netmask" ;;
                   netmask_value <- get_subnet_mask_value slash_mask ;;
                   netmask <- value_to_ipv4 netmask_value ;;
                   router_ip_value <- ipv4_to_value router_ip ;;
                   let network_value := get_network router_ip_value netmask_value in
                   network_ip <- value_to_ipv4 network_value ;;
                   Ok (" " ++ rjust 15 router_ip ++ ": netmask " ++ str netmask
                           ++ ": network " ++ str network_ip)) ;;
                 print line))
    as (lines & Hlines & Hloop).
  - intros k Hk. apply Hin in Hk.
    destruct (lookup_of_key routers k Hk) as (r & Hl & Hr).
    rewrite Forall_forall in Hok.
    destruct (Hok _ Hr) as (Hkey & slash & n & Hnm & Hs & Hn). cbn [fst snd] in *.
    destruct (ipv4_to_value_total k Hkey) as (v & Hv & _).
    assert (Hmask : exists t, value_to_ipv4 (2 ^ 32 - 2 ^ (32 - n)) = Ok (PStr t))
      by (eexists; apply value_to_ipv4_octets).
    assert (Hnet : exists t, value_to_ipv4 (Z.land v (2 ^ 32 - 2 ^ (32 - n)))
                             = Ok (PStr t))
      by (eexists; apply value_to_ipv4_octets).
    destruct Hmask as [netmask Hmask]. destruct Hnet as [network_ip Hnet].
    exists (" " ++ rjust 15 k ++ ": netmask " ++ netmask
                ++ ": network " ++ network_ip ++ newline).
    split.
    + exists r, slash, n, v, netmask, network_ip.
      repeat split; try assumption; lia.
    + intros w'. unfold bindIO, lift.
      rewrite (getitem_lookup routers k r Hl). cbn [bind].
      rewrite (getitem_lookup r _ _ Hnm). cbn [bind].
      rewrite (get_subnet_mask_value_slash slash n Hs Hn). cbn [bind].
      unfold get_network, mask_of. rewrite Hmask. cbn [bind]. rewrite Hv.
      cbn [bind]. rewrite Hnet. cbn [bind str].
      unfold print, print_end. do 2 f_equal.
      now rewrite !append_assoc.
  - exists lines. repeat (split; [assumption|]).
    unfold print_routers. unfold bindIO at 1 2. unfold print at 1, print_end at 1.
    unfold lift at 1. rewrite Hks, Hloop. cbn [stdout stderr files].
    now rewrite !append_assoc.
Qed.

Lemma print_routers_succeeds_witness :
  Forall router_entry_ok
    [("1.2.4.1", [("netmask", "/24")]); ("1.2.3.1", [("netmask", "/23")])]
  /\ exists router_list lines,
      sorted str_lt
        (keys [("1.2.4.1", [("netmask", "/24")]); ("1.2.3.1", [("netmask", "/23")])])
      = Ok router_list
      /\ (forall k, In k router_list
                    <-> In k (keys [("1.2.4.1", [("netmask", "/24")]);
                                    ("1.2.3.1", [("netmask", "/23")])]))
      /\ ascending router_list
      /\ Forall2
           (fun router_ip line =>
              exists r slash n v netmask network_ip,
                lookup [("1.2.4.1", [("netmask", "/24")]);
                        ("1.2.3.1", [("netmask", "/23")])] router_ip = Some r
                /\ lookup r "netmask" = Some slash
                /\ slash_notation slash n /\ 0 <= n <= 32
                /\ ipv4_to_value router_ip = Ok v
                /\ value_to_ipv4 (2 ^ 32 - 2 ^ (32 - n)) = Ok (PStr netmask)
                /\ value_to_ipv4 (Z.land v (2 ^ 32 - 2 ^ (32 - n)))
                   = Ok (PStr network_ip)
                /\ line = " " ++ rjust 15 router_ip ++ ": netmask " ++ netmask
                              ++ ": network " ++ network_ip ++ newline)
           router_list lines
      /\ print_routers
           [("1.2.4.1", [("netmask", "/24")]); ("1.2.3.1", [("netmask", "/23")])]
           {| stdout := ""; stderr := ""; files := fun _ => Raise KeyError |}
         = (Ok tt,
            {| stdout := "" ++ "Routers:" ++ newline ++ String.concat "" lines;
               stderr := ""; files := fun _ => Raise KeyError |}).
Proof.
  assert (Hok : Forall router_entry_ok
            [("1.2.4.1", [("netmask", "/24")]); ("1.2.3.1", [("netmask", "/23")])]).
  { repeat constructor.
    - exists "/24", 24. repeat split; [now exists "" | lia | lia].
    - exists "/23", 23. repeat split; [now exists "" | lia | lia]. }
  split; [exact Hok|].
  apply (print_routers_succeeds _
           {| stdout := ""; stderr := ""; files := fun _ => Raise KeyError |} Hok).
Defined.

Lemma for_io_raise {A : Type} (P : exn -> Prop) (l : list A) (f : A -> IO unit) :
  (forall x w e, fst (f x w) = Raise e -> P e) ->
  forall w e, fst (for_io l f w) = Raise e -> P e.
Proof.
  intros Hf. induction l as [|x l IH]; intros w e; cbn [for_io].
  - discriminate.
  - unfold bindIO. destruct (f x w) as [[[]|e'] w'] eqn:E.
    + apply IH.
    + cbn [fst]. intros [= <-]. apply (Hf x w). now rewrite E.
Qed.

Lemma print_same_subnets_unfold (src_dest_pairs : list (list string)) (w : world) :
  exists ps w1,
    (forall pair, In pair ps <-> In pair src_dest_pairs)
    /\ print_same_subnets src_dest_pairs w
       = for_io ps (fun pair =>
           p <~ lift (unpack2 pair) ;;
           let '(src_ip, dest_ip) := p in
           print_end (" " ++ rjust 15 src_ip ++ " " ++ rjust 15 dest_ip ++ ": ") "" ;;;
           same <~ lift (ips_same_subnet src_ip dest_ip "/24") ;;
           if same then print "same subnet" else print "different subnets") w1.
Proof.
  destruct (sorted_total list_lt src_dest_pairs) as (ps & Hps & Hin).
  { intros a b _ _. now eexists. }
  exists ps. eexists. split; [exact Hin|].
  unfold print_same_subnets.
  unfold bindIO at 1 2. unfold print at 1, print_end at 1, lift at 1.
  rewrite Hps. reflexivity.
Qed.

(** [print_same_subnets] raises nothing but [ValueError]: from a pair that
    is not two elements long, or from a malformed address. *)
Theorem print_same_subnets_raises_value_error
        (src_dest_pairs : list (list string)) (w : world) (e : exn) :
  fst (print_same_subnets src_dest_pairs w) = Raise e -> e = ValueError.
Proof.
  destruct (print_same_subnets_unfold src_dest_pairs w) as (ps & w1 & _ & ->).
  revert w1 e. apply for_io_raise. intros pair w' e. unfold bindIO, lift.
  destruct pair as [|a [|b [|c l]]]; cbn [unpack2]; try (now intros [= <-]).
  unfold print_end at 1.
  destruct (ips_same_subnet a b "/24") as [[|]|e'] eqn:E; cbn [fst];
    try discriminate.
  intros [= <-]. now apply (ips_same_subnet_raise a b "/24").
Qed.

Lemma print_same_subnets_raises_value_error_witness :
  fst (print_same_subnets [["1.2.3.4"; "1.2.3.5"; "1.2.3.6"]]
         {| stdout := ""; stderr := ""; files := fun _ => Raise KeyError |})
  = Raise ValueError
  /\ ValueError = ValueError.
Proof.
  split; [reflexivity|].
  apply (print_same_subnets_raises_value_error
           [["1.2.3.4"; "1.2.3.5"; "1.2.3.6"]]
           {| stdout := ""; stderr := ""; files := fun _ => Raise KeyError |}
           ValueError eq_refl).
Defined.

Lemma print_same_subnets_ok
      (src_dest_pairs : list (list string)) (w : world) :
  Forall pair_ok src_dest_pairs ->
  fst (print_same_subnets src_dest_pairs w) = Ok tt.
Proof.
  intros Hok.
  destruct (print_same_subnets_unfold src_dest_pairs w) as (ps & w1 & Hin & ->).
  apply for_io_succeeds. intros pair Hpair w'.
  apply Hin in Hpair. rewrite Forall_forall in Hok.
  destruct (Hok pair Hpair) as (a & b & -> & Ha & Hb).
  assert (S24 : slash_notation "/24" 24) by now exists "".
  destruct (ips_same_subnet_total a b "/24" 24 Ha Hb S24 ltac:(lia)) as [same Hs].
  unfold bindIO, lift. cbn [unpack2]. unfold print_end at 1. rewrite Hs.
  now destruct same.
Qed.

(** On well-formed pairs (two dotted-decimal addresses each)
    [print_same_subnets] prints its section and returns: after the heading
    comes one line per pair, the pairs in the order [sorted] gives them;
    the line of a pair shows both addresses right-aligned in 15 columns
    and then "same subnet" or "different subnets", according to
    [ips_same_subnet] with the fixed prefix "/24".  Nothing else is
    written. *)
Theorem print_same_subnets_succeeds
        (src_dest_pairs : list (list string)) (w : world) :
  Forall pair_ok src_dest_pairs ->
  exists pair_list lines,
    sorted list_lt src_dest_pairs = Ok pair_list
    /\ (forall pair, In pair pair_list <-> In pair src_dest_pairs)
    /\ Forall2
         (fun pair line =>
            exists src_ip dest_ip same,
              pair = [src_ip; dest_ip]
              /\ ips_same_subnet src_ip dest_ip "/24" = Ok same
              /\ line = " " ++ rjust 15 src_ip ++ " " ++ rjust 15 dest_ip ++ ": "
                            ++ (if same then "same subnet" else "different subnets")
                            ++ newline)
         pair_list lines
    /\ print_same_subnets src_dest_pairs w
       = (Ok tt,
          {| stdout := stdout w ++ "IP Pairs:" ++ newline ++ String.concat "" lines;
             stderr := stderr w; files := files w |}).
Proof.
  intros Hok.
  destruct (sorted_total list_lt src_dest_pairs) as (ps & Hps & Hin).
  { intros a b _ _. now eexists. }
  exists ps.
  destruct (for_io_output
              (fun pair line =>
                 exists src_ip dest_ip same,
                   pair = [src_ip; dest_ip]
                   /\ ips_same_subnet src_ip dest_ip "/24" = Ok same
                   /\ line = " " ++ rjust 15 src_ip ++ " " ++ rjust 15 dest_ip
                                 ++ ": "
                                 ++ (if same then "same subnet"
                                     else "different subnets")
                                 ++ newline)
              ps
              (fun pair =>
                 p <~ lift (unpack2 pair) ;;
                 let '(src_ip, dest_ip) := p in
                 print_end (" " ++ rjust 15 src_ip ++ " " ++ rjust 15 dest_ip ++ ": ")
                           "" ;;;
                 same <~ lift (ips_same_subnet src_ip dest_ip "/24") ;;
                 if same then print "same subnet" else print "different subnets"))
    as (lines & Hlines & Hloop).
  - intros pair Hpair. apply Hin in Hpair. rewrite Forall_forall in Hok.
    destruct (Hok pair Hpair) as (a & b & -> & Ha & Hb).
    assert (S24 : slash_notation "/24" 24) by now exists "".
    destruct (ips_same_subnet_total a b "/24" 24 Ha Hb S24 ltac:(lia)) as [same Hs].
    exists (" " ++ rjust 15 a ++ " " ++ rjust 15 b ++ ": "
                ++ (if same then "same subnet" else "different subnets")
                ++ newline).
    split.
    + exists a, b, same. repeat split. exact Hs.
    + intros w'. unfold bindIO, lift. cbn [unpack2]. unfold print_end at 1.
      rewrite Hs. destruct same; unfold print, print_end;
        cbn [stdout stderr files]; do 2 f_equal;
        rewrite append_nil_r; now rewrite !append_assoc.
  - exists lines. repeat (split; [assumption|]).
    unfold print_same_subnets. unfold bindIO at 1 2.
    unfold print at 1, print_end at 1, lift at 1.
    rewrite Hps, Hloop. cbn [stdout stderr files].
    now rewrite !append_assoc.
Qed.

Lemma print_same_subnets_succeeds_witness :
  Forall pair_ok [["10.0.0.9"; "10.0.0.77"]; ["10.0.0.9"; "10.0.1.77"]]
  /\ exists pair_list lines,
      sorted list_lt [["10.0.0.9"; "10.0.0.77"]; ["10.0.0.9"; "10.0.1.77"]]
      = Ok pair_list
      /\ (forall pair,
            In pair pair_list
            <-> In pair [["10.0.0.9"; "10.0.0.77"]; ["10.0.0.9"; "10.0.1.77"]])
      /\ Forall2
           (fun pair line =>
              exists src_ip dest_ip same,
                pair = [src_ip; dest_ip]
                /\ ips_same_subnet src_ip dest_ip "/24" = Ok same
                /\ line = " " ++ rjust 15 src_ip ++ " " ++ rjust 15 dest_ip ++ ": "
                              ++ (if same then "same subnet" else "different subnets")
                              ++ newline)
           pair_list lines
      /\ print_same_subnets [["10.0.0.9"; "10.0.0.77"]; ["10.0.0.9"; "10.0.1.77"]]
           {| stdout := ""; stderr := ""; files := fun _ => Raise KeyError |}
         = (Ok tt,
            {| stdout := "" ++ "IP Pairs:" ++ newline ++ String.concat "" lines;
               stderr := ""; files := fun _ => Raise KeyError |}).
Proof.
  assert (Hok : Forall pair_ok
            [["10.0.0.9"; "10.0.0.77"]; ["10.0.0.9"; "10.0.1.77"]]).
  { repeat constructor.
    - exists "10.0.0.9", "10.0.0.77". repeat split.
    - exists "10.0.0.9", "10.0.1.77". repeat split. }
  split; [exact Hok|].
  apply (print_same_subnets_succeeds _
           {| stdout := ""; stderr := ""; files := fun _ => Raise KeyError |} Hok).
Defined.

Lemma main_argv (prog file_name : string) (more : list string) (w : world) :
  main (prog :: file_name :: more) w = main [prog; file_name] w.
Proof.
  assert (Hidx : index (prog :: file_name :: more) 1 = Ok file_name).
  { unfold index. cbn [List.length]. rewrite !Nat2Z.inj_succ.
    change (1 <? 0) with false. cbv iota.
    destruct (Z.leb_spec (Z.succ (Z.succ (Z.of_nat (List.length more)))) 1); [lia|].
    reflexivity. }
  unfold main, my_tests. now rewrite Hidx.
Qed.

(** What the loader raised is what [main] raises, before anything is
    printed, whatever arguments follow the file name. *)
Theorem main_propagates_loader_failure
        (prog file_name : string) (more : list string) (w : world) (e : exn) :
  files w file_name = Raise e ->
  main (prog :: file_name :: more) w = (Raise e, w)
  /\ fst (exit_status (prog :: file_name :: more) w) = 1.
Proof.
  intros He. unfold exit_status. rewrite main_argv.
  unfold main, my_tests. change (index [prog; file_name] 1) with (Ok file_name).
  unfold bindIO, read_routers. rewrite He. split; reflexivity.
Qed.

Lemma main_propagates_loader_failure_witness :
  files {| stdout := ""; stderr := ""; files := fun _ => Raise ValueError |}
        "routers.json" = Raise ValueError
  /\ main ("netfuncs.py" :: "routers.json" :: ["extra"])
          {| stdout := ""; stderr := ""; files := fun _ => Raise ValueError |}
     = (Raise ValueError,
        {| stdout := ""; stderr := ""; files := fun _ => Raise ValueError |})
  /\ fst (exit_status ("netfuncs.py" :: "routers.json" :: ["extra"])
            {| stdout := ""; stderr := ""; files := fun _ => Raise ValueError |})
     = 1.
Proof.
  split; [reflexivity|].
  apply (main_propagates_loader_failure "netfuncs.py" "routers.json" ["extra"]
           {| stdout := ""; stderr := ""; files := fun _ => Raise ValueError |}
           ValueError eq_refl).
Defined.

(** When the loaded data lacks the "routers" or the "src-dest" key, [main]
    raises [KeyError] before anything is printed. *)
Theorem main_missing_key
        (prog file_name : string) (more : list string) (w : world)
        (data : json_data) :
  files w file_name = Ok data ->
  jd_routers data = None \/ jd_src_dest data = None ->
  main (prog :: file_name :: more) w = (Raise KeyError, w)
  /\ fst (exit_status (prog :: file_name :: more) w) = 1.
Proof.
  intros Hd Hmissing. unfold exit_status. rewrite main_argv.
  unfold main, my_tests. change (index [prog; file_name] 1) with (Ok file_name).
  unfold bindIO, read_routers, lift. rewrite Hd.
  destruct (jd_routers data); [|split; reflexivity].
  destruct Hmissing as [Hr|Hp]; [discriminate Hr | rewrite Hp; split; reflexivity].
Qed.

Lemma main_missing_key_witness :
  files {| stdout := ""; stderr := "";
           files := fun _ => Ok {| jd_routers := Some []; jd_src_dest := None |} |}
        "routers.json"
  = Ok {| jd_routers := Some []; jd_src_dest := None |}
  /\ (jd_routers {| jd_routers := Some []; jd_src_dest := None |} = None
      \/ jd_src_dest {| jd_routers := Some []; jd_src_dest := None |} = None)
  /\ main ("netfuncs.py" :: "routers.json" :: [])
          {| stdout := ""; stderr := "";
             files := fun _ => Ok {| jd_routers := Some []; jd_src_dest := None |} |}
     = (Raise KeyError,
        {| stdout := ""; stderr := "";
           files := fun _ => Ok {| jd_routers := Some []; jd_src_dest := None |} |})
  /\ fst (exit_status ("netfuncs.py" :: "routers.json" :: [])
            {| stdout := ""; stderr := "";
               files := fun _ => Ok {| jd_routers := Some []; jd_src_dest := None |} |})
     = 1.
Proof.
  split; [reflexivity|]. split; [right; reflexivity|].
  apply (main_missing_key "netfuncs.py" "routers.json" []
           {| stdout := ""; stderr := "";
              files := fun _ => Ok {| jd_routers := Some []; jd_src_dest := None |} |}
           {| jd_routers := Some []; jd_src_dest := None |} eq_refl).
  right. reflexivity.
Defined.

Lemma find_router_total (routers : dict router) (ip : string) :
  Forall router_entry_ok routers -> decimal_ipv4 ip = true ->
  exists found, find_router_for_ip routers ip = Ok found.
Proof.
  intros Hok Hip.
  induction Hok as [|[k r] rest (Hk & slash & n & Hl & Hs & Hn) _ IH]; [now eexists|].
  cbn [fst snd] in *.
  destruct (ips_same_subnet_total ip k slash n Hip Hk Hs Hn) as [b Hb].
  cbn [find_router_for_ip]. rewrite (getitem_lookup r _ _ Hl). cbn [bind].
  rewrite Hb. cbn [bind]. destruct b; [now eexists | exact IH].
Qed.

(** On well-formed data (every router entry and every pair well formed)
    the program exits with status 0 exactly when every address of the
    pairs has a router; it exits with status 1 as soon as one has none. *)
Theorem exit_status_on_well_formed_data
        (prog file_name : string) (more : list string) (w : world)
        (routers : dict router) (src_dest_pairs : list (list string)) :
  files w file_name
  = Ok {| jd_routers := Some routers; jd_src_dest := Some src_dest_pairs |} ->
  Forall router_entry_ok routers -> Forall pair_ok src_dest_pairs ->
  (fst (exit_status (prog :: file_name :: more) w) = 0
   <-> forall ip, In ip (List.concat src_dest_pairs) ->
         find_router_for_ip routers ip <> Ok None)
  /\ ((exists ip, In ip (List.concat src_dest_pairs)
                  /\ find_router_for_ip routers ip = Ok None)
      -> fst (exit_status (prog :: file_name :: more) w) = 1).
Proof.
  intros Hfile Hrouters Hpairs.
  assert (Hfind : forall ip, In ip (List.concat src_dest_pairs) ->
                    exists k, find_router_for_ip routers ip = Ok k).
  { intros ip Hip. apply in_concat in Hip as (pair & Hpair & Hip).
    rewrite Forall_forall in Hpairs.
    destruct (Hpairs pair Hpair) as (a & b & -> & Ha & Hb).
    assert (Hd : decimal_ipv4 ip = true) by (destruct Hip as [<-|[<-|[]]]; assumption).
    now apply find_router_total. }
  set (w1 := snd (print_routers routers w)).
  set (w2 := snd (print "" w1)).
  set (w3 := snd (print_same_subnets src_dest_pairs w2)).
  set (w4 := snd (print "" w3)).
  assert (Hval : fst (exit_status (prog :: file_name :: more) w)
                 = match fst (print_ip_routers routers src_dest_pairs w4) with
                   | Ok _ => 0
                   | Raise _ => 1
                   end).
  { unfold exit_status.
    rewrite main_argv.
    unfold main, my_tests.
    change (index [prog; file_name] 1) with (Ok file_name).
    unfold bindIO at 1 2 3, read_routers, lift at 1 2. rewrite Hfile.
    cbn [jd_routers jd_src_dest from_field].
    unfold bindIO at 1.
    pose proof (print_routers_ok routers w Hrouters) as H1.
    subst w1. destruct (print_routers routers w) as [[[]|e1] w1];
      [|discriminate H1].
    cbn [snd] in *. unfold bindIO at 1 2.
    change (print "" w1) with (Ok tt, w2). cbv iota beta.
    pose proof (print_same_subnets_ok src_dest_pairs w2 Hpairs) as H2.
    subst w3. destruct (print_same_subnets src_dest_pairs w2) as [[[]|e2] w3];
      [|discriminate H2].
    cbn [snd] in *. unfold bindIO at 1 2.
    change (print "" w3) with (Ok tt, w4). cbv iota beta.
    unfold bindIO, ret.
    destruct (print_ip_routers routers src_dest_pairs w4) as [[[]|e3] w5];
      reflexivity. }
  destruct (print_ip_routers_outcome routers src_dest_pairs w4 Hfind)
    as [Hiff Hraise].
  rewrite Hval. split; [split|].
  - intros H0. apply Hiff.
    destruct (fst (print_ip_routers routers src_dest_pairs w4)) as [[]|];
      [reflexivity | discriminate H0].
  - intros Hall. now rewrite (proj2 Hiff Hall).
  - intros Hex. now rewrite (Hraise Hex).
Qed.

Lemma exit_status_on_well_formed_data_witness :
  files {| stdout := ""; stderr := "";
           files := fun _ =>
             Ok {| jd_routers := Some [("1.2.3.1", [("netmask", "/24")])];
                   jd_src_dest := Some [["1.2.3.5"; "1.2.5.6"]] |} |}
        "routers.json"
  = Ok {| jd_routers := Some [("1.2.3.1", [("netmask", "/24")])];
          jd_src_dest := Some [["1.2.3.5"; "1.2.5.6"]] |}
  /\ Forall router_entry_ok [("1.2.3.1", [("netmask", "/24")])]
  /\ Forall pair_ok [["1.2.3.5"; "1.2.5.6"]]
  /\ (fst (exit_status ("netfuncs.py" :: "routers.json" :: [])
             {| stdout := ""; stderr := "";
                files := fun _ =>
                  Ok {| jd_routers := Some [("1.2.3.1", [("netmask", "/24")])];
                        jd_src_dest := Some [["1.2.3.5"; "1.2.5.6"]] |} |}) = 0
      <-> forall ip, In ip (List.concat [["1.2.3.5"; "1.2.5.6"]]) ->
            find_router_for_ip [("1.2.3.1", [("netmask", "/24")])] ip <> Ok None)
  /\ ((exists ip, In ip (List.concat [["1.2.3.5"; "1.2.5.6"]])
                  /\ find_router_for_ip [("1.2.3.1", [("netmask", "/24")])] ip
                     = Ok None)
      -> fst (exit_status ("netfuncs.py" :: "routers.json" :: [])
                {| stdout := ""; stderr := "";
                   files := fun _ =>
                     Ok {| jd_routers := Some [("1.2.3.1", [("netmask", "/24")])];
                           jd_src_dest := Some [["1.2.3.5"; "1.2.5.6"]] |} |}) = 1).
Proof.
  assert (Hr : Forall router_entry_ok [("1.2.3.1", [("netmask", "/24")])]).
  { repeat constructor. exists "/24", 24. repeat split; [now exists "" | lia | lia]. }
  assert (Hp : Forall pair_ok [["1.2.3.5"; "1.2.5.6"]]).
  { repeat constructor. exists "1.2.3.5", "1.2.5.6". repeat split. }
  split; [reflexivity|]. split; [exact Hr|]. split; [exact Hp|].
  apply (exit_status_on_well_formed_data "netfuncs.py" "routers.json" []
           {| stdout := ""; stderr := "";
              files := fun _ =>
                Ok {| jd_routers := Some [("1.2.3.1", [("netmask", "/24")])];
                      jd_src_dest := Some [["1.2.3.5"; "1.2.5.6"]] |} |}
           [("1.2.3.1", [("netmask", "/24")])] [["1.2.3.5"; "1.2.5.6"]]
           eq_refl Hr Hp).
Defined.

End ReportSections.
